(** * create_vps.py: provisioning one Vultr VPS

    A shallow embedding of [src/create_vps.py] and the properties of its
    quota guard, its four resolvers, the provisioning sequence of [main]
    and the readiness poller [poll_server].

    Python dictionaries that the script only iterates over (the replies of
    the provider's list calls) are kept as association lists in [items()]
    order; the inner dictionaries the script subscripts are finite maps.
    Exceptions are values of [exn]; calls to the provider, [print] and
    [time.sleep] are recorded in a trace. *)

From stdpp Require Import base strings list gmap pretty.

Open Scope Z_scope.

(** ** Python values *)

(** Scalar attribute values of the provider's JSON replies. *)
Inductive value :=
| VStr (s : string)
| VInt (n : Z).

#[global] Instance value_eq_dec : EqDecision value.
Proof. solve_decision. Defined.

(** [str(v)], as used by [str.format]. *)
Definition str (v : value) : string :=
  match v with
  | VStr s => s
  | VInt n => pretty n
  end.

(** An inner dictionary: the attributes of one plan, OS, region, SSH key or
    server. *)
Abbreviation details := (gmap string value).

(** An outer dictionary, as the sequence [d.items()] yields it. *)
Abbreviation pydict := (list (string * details)).

(** What a local such as [target_plan] can hold. *)
Inductive pyobj :=
| PyNone
| PyDict (d : details).

(** A local variable of a function body: [None] while no assignment has
    bound the name. *)
Abbreviation local := (option pyobj).

(** ** Exceptions *)

Inductive exn :=
| MaxServerAlreadyRunning (msg : string)
| GenericMissingAttribute (msg : string)
| UnboundLocalError (name : string)
| KeyError (key : string)
| TypeError (msg : string).

Inductive res (A : Type) :=
| Ok (a : A)
| Err (e : exn).
Arguments Ok {A} a.
Arguments Err {A} e.

#[global] Instance res_ret : MRet res := fun A a => Ok a.
#[global] Instance res_bind : MBind res := fun A B f m =>
  match m with
  | Ok a => f a
  | Err e => Err e
  end.

(** [d[k]] on an inner dictionary. *)
Definition getitem (d : details) (k : string) : res value :=
  match d !! k with
  | Some v => Ok v
  | None => Err (KeyError k)
  end.

(** [o[k]] on whatever a local holds. *)
Definition subscript (o : pyobj) (k : string) : res value :=
  match o with
  | PyNone => Err (TypeError "'NoneType' object is not subscriptable")
  | PyDict d => getitem d k
  end.

(** Reading a local by name. *)
Definition load (name : string) (v : local) : res pyobj :=
  match v with
  | Some o => Ok o
  | None => Err (UnboundLocalError name)
  end.

(** ** Constants *)

Definition TARGET_OS : string := "Debian 10 x64 (buster)".
Definition TARGET_PLAN_PRICE : string := "5.00".
Definition TARGET_DATACENTER : string := "Toronto".
Definition HOSTNAME : string := "bgp-coldnorthadmin".
Definition TARGET_SSHKEY : string := "bgp-coldnorthadmin".

(** ** Quota guard and resolvers *)

Definition check_return_value (value : pyobj) (message : string) : res unit :=
  match value with
  | PyNone => Err (GenericMissingAttribute message)
  | PyDict _ => Ok tt
  end.

Definition get_limit_running_servers (servers_dict : pydict) : res bool :=
  if bool_decide (1 ≤ Z.of_nat (length servers_dict))
  then Err (MaxServerAlreadyRunning "Maximum servers currently running")
  else Ok true.

(** ["We tried to find: {} and nothing matched from Vultr".format(target)] *)
Definition nothing_matched (target : string) : string :=
  "We tried to find: " +:+ target +:+ " and nothing matched from Vultr".

(** The loop the four resolvers share,
    [for (_, cand) in d.items(): if cand[attr] == target: var = cand],
    threading the local [var] it assigns. *)
Fixpoint for_matching (attr target : string) (d : pydict) (var : local)
  : res local :=
  match d with
  | [] => Ok var
  | (_, cand) :: rest =>
      v ← getitem cand attr;
      if bool_decide (v = VStr target)
      then for_matching attr target rest (Some (PyDict cand))
      else for_matching attr target rest var
  end.

Definition get_ssh_key (ssh_keys_dict : pydict) : res pyobj :=
  target_ssh_key ← for_matching "name" TARGET_SSHKEY ssh_keys_dict (Some PyNone);
  value ← load "target_ssh_key" target_ssh_key;
  _ ← check_return_value value (nothing_matched TARGET_SSHKEY);
  load "target_ssh_key" target_ssh_key.

Definition get_plan (plans_dict : pydict) : res pyobj :=
  target_plan ← for_matching "price_per_month" TARGET_PLAN_PRICE plans_dict (Some PyNone);
  value ← load "target_plan" target_plan;
  _ ← check_return_value value (nothing_matched TARGET_PLAN_PRICE);
  load "target_plan" target_plan.

(** [get_os] and [get_datacenter] have no [target_... = None] before the
    loop: the local is unbound until a candidate matches. *)
Definition get_os (os_dict : pydict) : res pyobj :=
  target_os ← for_matching "name" TARGET_OS os_dict None;
  value ← load "target_os" target_os;
  _ ← check_return_value value (nothing_matched TARGET_OS);
  load "target_os" target_os.

Definition get_datacenter (regions_dict : pydict) : res pyobj :=
  target_datacenter ← for_matching "name" TARGET_DATACENTER regions_dict None;
  value ← load "target_datacenter" target_datacenter;
  _ ← check_return_value value (nothing_matched TARGET_DATACENTER);
  load "target_datacenter" target_datacenter.

(** ** The provider, the trace and the monad of effectful code *)

(** What [vultr_client] answers. [server_list n] is the reply to the [n]-th
    call of [server.list()] of the run (counting from 0); the other
    listings are fetched once. *)
Record client := {
  server_list : nat → pydict;
  plans_list : pydict;
  os_list : pydict;
  regions_list : pydict;
  sshkey_list : pydict
}.

(** Outward effects, in the order they happen. *)
Inductive event :=
| Sleep (secs : Z)
| Print (line : string)
| ServerList
| PlansList
| OsList
| RegionsList
| SshkeyList
| ServerCreate (dcid vpsplanid osid : value) (params : details).

Record world := {
  trace : list event;
  fetches : nat
}.

Definition initial : world := {| trace := []; fetches := 0 |}.

(** How a run of effectful code ends: a value, an exception, or the loop
    still running when the fuel is spent. *)
Inductive outcome (A : Type) :=
| Ret (a : A)
| Raise (e : exn)
| OutOfFuel.
Arguments Ret {A} a.
Arguments Raise {A} e.
Arguments OutOfFuel {A}.

Definition M (A : Type) : Type := world → outcome A * world.

#[global] Instance M_ret : MRet M := fun A a w => (Ret a, w).
#[global] Instance M_bind : MBind M := fun A B f m w =>
  match m w with
  | (Ret a, w') => f a w'
  | (Raise e, w') => (Raise e, w')
  | (OutOfFuel, w') => (OutOfFuel, w')
  end.

Definition lift {A} (r : res A) : M A := fun w =>
  match r with
  | Ok a => (Ret a, w)
  | Err e => (Raise e, w)
  end.

Definition emit (e : event) : M unit := fun w =>
  (Ret tt, {| trace := trace w ++ [e]; fetches := fetches w |}).

Definition print (line : string) : M unit := emit (Print line).
Definition sleep (secs : Z) : M unit := emit (Sleep secs).

(** [vultr_client.server.list()] *)
Definition server_list_call (vultr_client : client) : M pydict := fun w =>
  (Ret (server_list vultr_client (fetches w)),
   {| trace := trace w ++ [ServerList]; fetches := S (fetches w) |}).

(** The other provider calls: one event, one fixed reply. *)
Definition call {A} (e : event) (reply : A) : M A :=
  _ ← emit e; mret reply.

(** ** Readiness poller *)

Definition dquote : string := String (Ascii.ascii_of_nat 34) EmptyString.

(** ['Expecting STATUS "ACTIVE" and SERVER_STATE "OK" but Vultr returned:
    {} and {}'.format(status, server_state)] *)
Definition not_ready_yet (status server_state : value) : string :=
  "Expecting STATUS " +:+ dquote +:+ "ACTIVE" +:+ dquote +:+
  " and SERVER_STATE " +:+ dquote +:+ "OK" +:+ dquote +:+
  " but Vultr returned: " +:+ str status +:+ " and " +:+ str server_state.

(** The body of [for server in servers_dict.items()], for one server. The
    [or] evaluates its right operand only when the left one is false. *)
Definition inspect_server (server_details : details) (server_state : bool)
  : M bool :=
  label ← lift (getitem server_details "label");
  if bool_decide (label = VStr HOSTNAME) then
    status ← lift (getitem server_details "status");
    unready ←
      (if bool_decide (status ≠ VStr "active") then mret true
       else
         health ← lift (getitem server_details "server_state");
         mret (bool_decide (health ≠ VStr "ok")));
    if (unready : bool) then
      status ← lift (getitem server_details "status");
      health ← lift (getitem server_details "server_state");
      _ ← print (not_ready_yet status health);
      mret server_state
    else mret true
  else mret server_state.

Fixpoint scan_servers (servers_dict : pydict) (server_state : bool) : M bool :=
  match servers_dict with
  | [] => mret server_state
  | (_, server_details) :: rest =>
      server_state ← inspect_server server_details server_state;
      scan_servers rest server_state
  end.

(** One pass through the body of the [while]. *)
Definition poll_iteration (vultr_client : client)
    (server_state : bool) (timeout : Z) : M (bool * Z) :=
  _ ← sleep 2;
  servers_dict ← server_list_call vultr_client;
  if bool_decide (Z.of_nat (length servers_dict) = 0) then
    _ ← print "There are no servers currently running or shutdown";
    mret (server_state, timeout + 1)
  else
    server_state ← scan_servers servers_dict server_state;
    mret (server_state, timeout).

(** The [while ... else] statement, returning the locals it leaves. The
    body has no [break], so the [else] suite runs whenever the condition
    is found false. *)
Fixpoint poll_while (vultr_client : client) (fuel : nat)
    (server_state : bool) (timeout : Z) : M (bool * Z) :=
  if negb server_state && bool_decide (timeout < 10) then
    match fuel with
    | O => fun w => (OutOfFuel, w)
    | S fuel =>
        '(server_state, timeout) ← poll_iteration vultr_client server_state timeout;
        poll_while vultr_client fuel server_state timeout
    end
  else
    _ ← print "Server is Ready!";
    mret (server_state, timeout).

Definition poll_server (vultr_client : client) (fuel : nat) : M unit :=
  let server_state := false in
  let timeout := 0 in
  _ ← poll_while vultr_client fuel server_state timeout;
  mret tt.

(** ** Provisioning *)

(** [main] after the client has been built from the API key; [fuel]
    bounds the iterations of the poller. *)
Definition main (vultr_client : client) (fuel : nat) : M unit :=
  servers_dict ← server_list_call vultr_client;
  _ ← lift (get_limit_running_servers servers_dict);
  plans_dict ← call PlansList (plans_list vultr_client);
  os_dict ← call OsList (os_list vultr_client);
  regions_dict ← call RegionsList (regions_list vultr_client);
  ssh_keys_dict ← call SshkeyList (sshkey_list vultr_client);
  target_plan ← lift (get_plan plans_dict);
  target_os ← lift (get_os os_dict);
  target_datacenter ← lift (get_datacenter regions_dict);
  target_ssh_key ← lift (get_ssh_key ssh_keys_dict);
  _ ← print "Creating server now";
  dcid ← lift (subscript target_datacenter "DCID");
  vpsplanid ← lift (subscript target_plan "VPSPLANID");
  osid ← lift (subscript target_os "OSID");
  sshkeyid ← lift (subscript target_ssh_key "SSHKEYID");
  _ ← emit (ServerCreate dcid vpsplanid osid
              {[ "hostname" := VStr HOSTNAME;
                 "label" := VStr HOSTNAME;
                 "SSHKEYID" := sshkeyid ]});
  poll_server vultr_client fuel.


(** ** Vocabulary of the statements *)

(** The four resolved dimensions and the resolver of each. *)
Inductive dimension := SshKey | Plan | Os | Datacenter.

Definition resolve (dim : dimension) : pydict → res pyobj :=
  match dim with
  | SshKey => get_ssh_key
  | Plan => get_plan
  | Os => get_os
  | Datacenter => get_datacenter
  end.

Definition attribute (dim : dimension) : string :=
  match dim with
  | Plan => "price_per_month"
  | SshKey | Os | Datacenter => "name"
  end.

Definition target (dim : dimension) : string :=
  match dim with
  | SshKey => TARGET_SSHKEY
  | Plan => TARGET_PLAN_PRICE
  | Os => TARGET_OS
  | Datacenter => TARGET_DATACENTER
  end.

(** A candidate satisfies the predicate of a resolver. *)
Definition matching (attr tgt : string) (cand : details) : bool :=
  bool_decide (cand !! attr = Some (VStr tgt)).

(** Every candidate of the set carries the attribute the resolver reads. *)
Definition carries (attr : string) (d : pydict) : bool :=
  forallb (fun kc => bool_decide (is_Some (kc.2 !! attr))) d.

(** The candidates of a set that satisfy the predicate, in iteration order. *)
Definition matches (attr tgt : string) (d : pydict) : list details :=
  List.filter (matching attr tgt) (d.*2).

(** A server carries the configured label. *)
Definition labelled (sd : details) : bool :=
  bool_decide (sd !! "label" = Some (VStr HOSTNAME)).

(** Readiness: labelled, lifecycle status "active" and health "ok". *)
Definition is_ready (sd : details) : bool :=
  labelled sd
  && bool_decide (sd !! "status" = Some (VStr "active"))
  && bool_decide (sd !! "server_state" = Some (VStr "ok")).

Definition ready_in (d : pydict) : bool :=
  existsb (fun kc => is_ready kc.2) d.

(** The keys the poller subscripts are present: the label of every server,
    and both statuses of a server that carries the configured label. *)
Definition server_ok (sd : details) : bool :=
  bool_decide (is_Some (sd !! "label"))
  && (negb (labelled sd)
      || bool_decide (is_Some (sd !! "status"))
         && bool_decide (is_Some (sd !! "server_state"))).

Definition servers_ok (d : pydict) : bool :=
  forallb (fun kc => server_ok kc.2) d.

(** What one scan prints: a line for each labelled server that is not
    ready. *)
Definition complaint (sd : details) : list event :=
  if labelled sd && negb (is_ready sd)
  then [Print (not_ready_yet (default (VStr "") (sd !! "status"))
                             (default (VStr "") (sd !! "server_state")))]
  else [].

Definition complaints (d : pydict) : list event :=
  flat_map (fun kc => complaint kc.2) d.

Definition is_create (e : event) : bool :=
  match e with
  | ServerCreate _ _ _ _ => true
  | _ => false
  end.

(** The events of a trace that are create calls. *)
Definition creates (tr : list event) : list event := List.filter is_create tr.

(** The events of a trace that are calls to the provider. *)
Definition is_provider_call (e : event) : bool :=
  match e with
  | Sleep _ | Print _ => false
  | _ => true
  end.

Definition provider_calls (tr : list event) : list event :=
  List.filter is_provider_call tr.

(** Extending the trace of a world. *)
Definition logged (w : world) (evs : list event) : world :=
  {| trace := trace w ++ evs; fetches := fetches w |}.

(** Code whose every event satisfies [P], however it ends. *)
Definition only (P : event → bool) {A} (m : M A) : Prop :=
  ∀ w, ∃ evs, (m w).2 = {| trace := trace w ++ evs; fetches := fetches (m w).2 |}
              ∧ forallb P evs = true.

(** The world after one more [server.list()] and the events [evs] around
    it. *)
Definition fetched (w : world) (evs : list event) : world :=
  {| trace := trace w ++ evs; fetches := S (fetches w) |}.

(** The events of an iteration that finds no server at all. *)
Definition idle : list event :=
  [Sleep 2; ServerList;
   Print "There are no servers currently running or shutdown"].

(** The events of [n] iterations in a row that find no server. *)
Fixpoint idles (n : nat) : list event :=
  match n with
  | O => []
  | S n => idle ++ idles n
  end.

(** A provider that never has a server. *)
Definition no_servers : client :=
  {| server_list := fun _ => []; plans_list := []; os_list := [];
     regions_list := []; sshkey_list := [] |}.

(** ** Fixtures *)

Definition debian : details :=
  {[ "OSID" := VInt 352; "name" := VStr "Debian 10 x64 (buster)";
     "family" := VStr "debian" ]}.

Definition centos : details :=
  {[ "OSID" := VInt 167; "name" := VStr "CentOS 7 x64";
     "family" := VStr "centos" ]}.

Definition plan_5 : details :=
  {[ "VPSPLANID" := VStr "201"; "name" := VStr "1024 MB RAM,25 GB SSD,1.00 TB BW";
     "price_per_month" := VStr "5.00" ]}.

Definition plan_5_bis : details :=
  {[ "VPSPLANID" := VStr "400"; "name" := VStr "1024 MB RAM,32 GB SSD,1.00 TB BW";
     "price_per_month" := VStr "5.00" ]}.

Definition plan_10 : details :=
  {[ "VPSPLANID" := VStr "202"; "name" := VStr "2048 MB RAM,55 GB SSD,2.00 TB BW";
     "price_per_month" := VStr "10.00" ]}.

Definition toronto : details :=
  {[ "DCID" := VStr "22"; "name" := VStr "Toronto"; "country" := VStr "CA" ]}.

Definition new_jersey : details :=
  {[ "DCID" := VStr "1"; "name" := VStr "New Jersey"; "country" := VStr "US" ]}.

Definition admin_key : details :=
  {[ "SSHKEYID" := VStr "541b4960f23bd"; "name" := VStr "bgp-coldnorthadmin" ]}.

Definition laptop_key : details :=
  {[ "SSHKEYID" := VStr "5f1a2b3c4d5e6"; "name" := VStr "laptop" ]}.

(** A server with the given label and statuses. *)
Definition server (label status health : string) : details :=
  {[ "label" := VStr label; "status" := VStr status;
     "server_state" := VStr health ]}.

(** One matching candidate per dimension and no running server; once the
    server is created, three empty listings and then the ready server. *)
Definition fixture : client :=
  {| server_list := fun n =>
       if (n <? 4)%nat then []
       else [("576965", server "bgp-coldnorthadmin" "active" "ok")];
     plans_list := [("201", plan_5); ("202", plan_10)];
     os_list := [("167", centos); ("352", debian)];
     regions_list := [("1", new_jersey); ("22", toronto)];
     sshkey_list := [("541b4960f23bd", admin_key); ("5f1a2b3c4d5e6", laptop_key)] |}.

(** A provider on which the server is already running. *)
Definition occupied : client :=
  {| server_list := fun _ =>
       [("576965", server "bgp-coldnorthadmin" "active" "ok")];
     plans_list := [("201", plan_5); ("202", plan_10)];
     os_list := [("167", centos); ("352", debian)];
     regions_list := [("1", new_jersey); ("22", toronto)];
     sshkey_list := [("541b4960f23bd", admin_key)] |}.

(** A provider on which another server is always listed, never the one
    with the configured label. *)
Definition stranger : client :=
  {| server_list := fun _ => [("100200", server "mail" "active" "ok")];
     plans_list := [("201", plan_5)]; os_list := [("352", debian)];
     regions_list := [("22", toronto)];
     sshkey_list := [("541b4960f23bd", admin_key)] |}.

(** A provider that lists the configured label twice: first ready, then
    still pending. *)
Definition twins : client :=
  {| server_list := fun _ =>
       [("576965", server "bgp-coldnorthadmin" "active" "ok");
        ("576966", server "bgp-coldnorthadmin" "pending" "none")];
     plans_list := []; os_list := []; regions_list := []; sshkey_list := [] |}.

(** ** Vocabulary of the further properties *)

(** The number of empty replies among the [n] calls of [server.list()]
    from the [from]-th on. *)
Fixpoint empties (c : client) (from n : nat) : nat :=
  match n with
  | O => 0
  | S n =>
      ((if bool_decide (server_list c from = []) then 1 else 0)
       + empties c (S from) n)%nat
  end.

Definition is_print (e : event) : bool :=
  match e with
  | Print _ => true
  | _ => false
  end.

(** A trace made of printed lines and of pairs [Sleep 2; ServerList] only:
    every listing of the servers comes right after a pause of two seconds,
    every pause is followed by a listing, and nothing else is called. *)
Fixpoint paced (evs : list event) : bool :=
  match evs with
  | [] => true
  | Print _ :: rest => paced rest
  | Sleep secs :: ServerList :: rest => bool_decide (secs = 2) && paced rest
  | _ => false
  end.

(** The keys the poller subscripts. *)
Definition poller_keys : list string := ["label"; "status"; "server_state"].

(** The five listings [main] starts with. *)
Definition listings : list event :=
  [ServerList; PlansList; OsList; RegionsList; SshkeyList].

(** The create call of [main]. *)
Definition create_call (dcid vpsplanid osid sshkeyid : value) : event :=
  ServerCreate dcid vpsplanid osid
    {[ "hostname" := VStr HOSTNAME; "label" := VStr HOSTNAME;
       "SSHKEYID" := sshkeyid ]}.

(** An OS entry without a name. *)
Definition nameless_os : details := {[ "OSID" := VInt 999 ]}.

(** A region entry without an identifier. *)
Definition toronto_without_id : details :=
  {[ "name" := VStr "Toronto"; "country" := VStr "CA" ]}.

(** A provider that answers every other listing with an empty one and
    otherwise lists a server with another label. *)
Definition flaky : client :=
  {| server_list := fun n =>
       if Nat.even n then [] else [("100200", server "mail" "active" "ok")];
     plans_list := [("201", plan_5)]; os_list := [("352", debian)];
     regions_list := [("22", toronto)];
     sshkey_list := [("541b4960f23bd", admin_key)] |}.

(** A provider that lists the ready server followed by an entry without a
    label. *)
Definition broken : client :=
  {| server_list := fun _ =>
       [("576965", server "bgp-coldnorthadmin" "active" "ok");
        ("576970", {[ "status" := VStr "active" ]})];
     plans_list := [("201", plan_5)]; os_list := [("352", debian)];
     regions_list := [("22", toronto)];
     sshkey_list := [("541b4960f23bd", admin_key)] |}.

(** The fixture on which the created server never shows up. *)
Definition fixture_never_listed : client :=
  {| server_list := fun _ => [];
     plans_list := plans_list fixture;
     os_list := os_list fixture;
     regions_list := regions_list fixture;
     sshkey_list := sshkey_list fixture |}.

(** The fixture with a region entry that has lost its identifier. *)
Definition fixture_without_dcid : client :=
  {| server_list := server_list fixture;
     plans_list := plans_list fixture;
     os_list := os_list fixture;
     regions_list := [("1", new_jersey); ("22", toronto_without_id)];
     sshkey_list := sshkey_list fixture |}.

(** The fixture without the plan at 5.00 and without the Toronto region. *)
Definition fixture_without_plan : client :=
  {| server_list := server_list fixture;
     plans_list := [("202", plan_10)];
     os_list := os_list fixture;
     regions_list := [("1", new_jersey)];
     sshkey_list := sshkey_list fixture |}.

(** * Resolvers *)

Section Resolver.
Variables attr tgt : string.

Lemma for_matching_last (d : pydict) (var : local) :
  carries attr d = true →
  for_matching attr tgt d var
  = Ok (from_option (fun c => Some (PyDict c)) var (last (matches attr tgt d))).
Proof.
  revert var. induction d as [|[k cand] rest IH]; intros var Hc; [done|].
  cbn in Hc. apply andb_prop in Hc as [Hk Hrest].
  apply bool_decide_eq_true in Hk as [v Hv].
  cbn [for_matching]. unfold getitem. rewrite Hv. cbn.
  unfold matches. cbn [fmap list_fmap List.filter snd].
  unfold matching at 1. rewrite Hv.
  destruct (decide (v = VStr tgt)) as [->|Hne].
  - rewrite !bool_decide_eq_true_2 by done.
    rewrite IH by done. rewrite last_cons. fold (matches attr tgt rest).
    by destruct (last (matches attr tgt rest)).
  - rewrite !bool_decide_eq_false_2 by congruence.
    by rewrite IH.
Qed.

(** A candidate without the attribute stops the loop with [KeyError]. *)
Lemma for_matching_key_error (d : pydict) (var : local) :
carries attr d = false →
for_matching attr tgt d var = Err (KeyError attr).
Proof.
revert var. induction d as [|[k cand] rest IH]; intros var Hc; [done|].
cbn in Hc. cbn [for_matching]. unfold getitem.
destruct (cand !! attr) as [v|] eqn:Hv; [|done].
rewrite bool_decide_eq_true_2 in Hc by eauto. cbn in Hc |- *.
case_bool_decide; by apply IH.
Qed.

Lemma matches_app (d1 d2 : pydict) :
  matches attr tgt (d1 ++ d2) = matches attr tgt d1 ++ matches attr tgt d2.
Proof. unfold matches. by rewrite fmap_app, List.filter_app. Qed.

Lemma matches_none (d : pydict) :
  forallb (fun kc => negb (matching attr tgt kc.2)) d = true →
  matches attr tgt d = [].
Proof.
  induction d as [|[k cand] rest IH]; [done|]. cbn.
  intros [Hc Hrest]%andb_prop. unfold matches. cbn.
  apply negb_true_iff in Hc. rewrite Hc. by apply IH.
Qed.
End Resolver.

Lemma resolve_unfold (dim : dimension) (d : pydict) :
  resolve dim d
  = (var ← for_matching (attribute dim) (target dim) d
             (match dim with SshKey | Plan => Some PyNone | _ => None end);
     value ← load (match dim with
                   | SshKey => "target_ssh_key" | Plan => "target_plan"
                   | Os => "target_os" | Datacenter => "target_datacenter"
                   end) var;
     _ ← check_return_value value (nothing_matched (target dim));
     mret value).
Proof.
  destruct dim; cbn; unfold get_ssh_key, get_plan, get_os, get_datacenter;
    (destruct (for_matching _ _ d _) as [[o|]|]; [|done..]); cbn;
    by destruct o.
Qed.

(** Whenever some candidate matches, every resolver returns the last one. *)
Lemma resolve_last (dim : dimension) (d : pydict) (cand : details) :
  carries (attribute dim) d = true →
  last (matches (attribute dim) (target dim) d) = Some cand →
  resolve dim d = Ok (PyDict cand).
Proof.
  intros Hc Hl. rewrite resolve_unfold, for_matching_last by done.
  rewrite Hl. by destruct dim.
Qed.

(** With no match, the two resolvers that bind their local to [None] before
    the loop raise [GenericMissingAttribute]; the two that do not raise
    [UnboundLocalError]. *)
Lemma resolve_no_match (dim : dimension) (d : pydict) :
  carries (attribute dim) d = true →
  matches (attribute dim) (target dim) d = [] →
  resolve dim d
  = Err (match dim with
         | SshKey => GenericMissingAttribute (nothing_matched TARGET_SSHKEY)
         | Plan => GenericMissingAttribute (nothing_matched TARGET_PLAN_PRICE)
         | Os => UnboundLocalError "target_os"
         | Datacenter => UnboundLocalError "target_datacenter"
         end).
Proof.
  intros Hc Hm. rewrite resolve_unfold, for_matching_last by done.
  rewrite Hm. by destruct dim.
Qed.

(** * Effects *)

Lemma logged_nil (w : world) : logged w [] = w.
Proof. destruct w. unfold logged. cbn. by rewrite app_nil_r. Qed.

Lemma logged_logged (w : world) (evs1 evs2 : list event) :
  logged (logged w evs1) evs2 = logged w (evs1 ++ evs2).
Proof. unfold logged. cbn. by rewrite app_assoc. Qed.

Lemma bind_run {A B} (m : M A) (f : A → M B) (w : world) :
  (m ≫= f) w
  = match m w with
    | (Ret a, w') => f a w'
    | (Raise e, w') => (Raise e, w')
    | (OutOfFuel, w') => (OutOfFuel, w')
    end.
Proof. reflexivity. Qed.

Lemma bind_ret_run {A B} (m : M A) (f : A → M B) (w w' : world) (a : A) :
  m w = (Ret a, w') → (m ≫= f) w = f a w'.
Proof. intros H. by rewrite bind_run, H. Qed.

Section Only.
Variable P : event → bool.

Lemma only_ret {A} (a : A) : only P (mret a : M A).
Proof. intros [tr n]. exists []. cbn. by rewrite app_nil_r. Qed.

Lemma only_lift {A} (r : res A) : only P (lift r).
Proof. intros [tr n]. exists []. destruct r; cbn; by rewrite app_nil_r. Qed.

Lemma only_emit (e : event) : P e = true → only P (emit e).
Proof. intros He w. exists [e]. cbn. by rewrite He. Qed.

Lemma only_out_of_fuel {A} : only P (fun w => (@OutOfFuel A, w)).
Proof. intros [tr n]. exists []. cbn. by rewrite app_nil_r. Qed.

Lemma only_server_list_call (c : client) :
  P ServerList = true → only P (server_list_call c).
Proof. intros He w. exists [ServerList]. cbn. by rewrite He. Qed.

Lemma only_bind {A B} (m : M A) (f : A → M B) :
  only P m → (∀ a, only P (f a)) → only P (m ≫= f).
Proof.
  intros Hm Hf w. rewrite bind_run.
  destruct (Hm w) as (evs & Hw & Hevs).
  destruct (m w) as [[a|e|] w1] eqn:Em; cbn in Hw.
  - destruct (Hf a w1) as (evs' & Hw' & Hevs').
    exists (evs ++ evs'). rewrite Hw' at 1. rewrite Hw at 1. cbn.
    rewrite app_assoc. split; [done|].
    rewrite forallb_app. by rewrite Hevs, Hevs'.
  - by exists evs.
  - by exists evs.
Qed.

Lemma only_if {A} (b : bool) (m1 m2 : M A) :
  only P m1 → only P m2 → only P (if b then m1 else m2).
Proof. by destruct b. Qed.
End Only.

Ltac only_step :=
  first
    [ apply only_ret
    | apply only_lift
    | apply only_out_of_fuel
    | apply only_emit; reflexivity
    | apply only_server_list_call; reflexivity
    | apply only_if
    | apply only_bind; [|intros ?] ].

Section PollerEvents.
Variable P : event → bool.
Hypothesis P_print : ∀ line, P (Print line) = true.
Hypothesis P_sleep : ∀ secs, P (Sleep secs) = true.
Hypothesis P_list : P ServerList = true.

Lemma only_print (line : string) : only P (print line).
Proof. apply only_emit, P_print. Qed.

Lemma only_inspect_server (sd : details) (s : bool) :
  only P (inspect_server sd s).
Proof.
  unfold inspect_server.
  repeat first [ apply only_print | only_step ].
Qed.

Lemma only_scan_servers (d : pydict) (s : bool) : only P (scan_servers d s).
Proof.
  revert s. induction d as [|[k sd] rest IH]; intros s; cbn.
  - apply only_ret.
  - apply only_bind; [apply only_inspect_server | intros; apply IH].
Qed.

Lemma only_poll_iteration (c : client) (s : bool) (t : Z) :
  only P (poll_iteration c s t).
Proof.
  unfold poll_iteration.
  apply only_bind; [apply only_emit, P_sleep | intros _].
  apply only_bind; [by apply only_server_list_call | intros d].
  apply only_if;
    repeat first [ apply only_print | apply only_scan_servers | only_step ].
Qed.

Lemma only_poll_while (c : client) (fuel : nat) (s : bool) (t : Z) :
  only P (poll_while c fuel s t).
Proof.
  revert s t. induction fuel as [|fuel IH]; intros s t;
    cbn [poll_while]; apply only_if;
    try (apply only_bind; [apply only_print | intros; apply only_ret]).
  - apply only_out_of_fuel.
  - apply only_bind; [apply only_poll_iteration | intros [s1 t1]; apply IH].
Qed.

Lemma only_poll_server (c : client) (fuel : nat) :
  only P (poll_server c fuel).
Proof.
  unfold poll_server.
  apply only_bind; [apply only_poll_while | intros; apply only_ret].
Qed.
End PollerEvents.

(** * The scan of one reply *)

Ltac run_monad :=
  cbv [mbind M_bind mret M_ret lift print emit default id andb orb negb];
  cbn [trace fetches].

Lemma inspect_server_spec (sd : details) (s : bool) (w : world) :
  server_ok sd = true →
  inspect_server sd s w = (Ret (s || is_ready sd), logged w (complaint sd)).
Proof.
  unfold server_ok, complaint, is_ready, labelled, inspect_server, getitem.
  intros [Hl Hs]%andb_prop.
  apply bool_decide_eq_true in Hl as [label Hl]. rewrite Hl in *.
  destruct w as [tr n]. run_monad.
  destruct (decide (label = VStr HOSTNAME)) as [->|Hne].
  - rewrite !bool_decide_eq_true_2 in * by done. cbn in Hs.
    apply andb_prop in Hs as [[status Hst]%bool_decide_eq_true
                                [health Hh]%bool_decide_eq_true].
    rewrite Hst, Hh. run_monad.
    destruct s; repeat (case_bool_decide; simplify_eq);
      run_monad; unfold logged; cbn; rewrite ?app_nil_r; done.
  - rewrite (bool_decide_eq_false_2 (label = _)) by done.
    rewrite (bool_decide_eq_false_2 (Some label = _)) by congruence.
    destruct s; unfold logged; cbn; by rewrite app_nil_r.
Qed.

(** A server without a key the scan subscripts stops it with [KeyError]. *)
Lemma inspect_server_key_error (sd : details) (s : bool) (w : world) :
  server_ok sd = false →
  ∃ k, inspect_server sd s w = (Raise (KeyError k), w).
Proof.
  unfold server_ok, labelled, inspect_server, getitem. intros Hbad.
  run_monad.
  destruct (sd !! "label") as [label|] eqn:Hl; [|by eexists].
  rewrite bool_decide_eq_true_2 in Hbad by eauto. cbn in Hbad.
  apply orb_false_iff in Hbad as [Hlab Hkeys].
  apply negb_false_iff, bool_decide_eq_true in Hlab as [= ->].
  rewrite bool_decide_eq_true_2 by done.
  destruct (sd !! "status") as [status|] eqn:Hst; [|by eexists].
  rewrite bool_decide_eq_true_2 in Hkeys by eauto. cbn in Hkeys.
  destruct (sd !! "server_state") as [health|] eqn:Hh;
    [by rewrite bool_decide_eq_true_2 in Hkeys by eauto|].
  clear Hkeys. case_bool_decide; eexists; reflexivity.
Qed.

Lemma scan_servers_key_error (d : pydict) (s : bool) (w : world) :
  servers_ok d = false →
  ∃ k w', scan_servers d s w = (Raise (KeyError k), w').
Proof.
  revert s w. induction d as [|[k sd] rest IH]; intros s w Hbad; [done|].
  cbn in Hbad. cbn [scan_servers]. rewrite bind_run.
  destruct (server_ok sd) eqn:Hsd.
  - rewrite inspect_server_spec by done. by apply IH.
  - destruct (inspect_server_key_error sd s w Hsd) as [k' ->]. by eexists _, _.
Qed.

Lemma scan_servers_spec (d : pydict) (s : bool) (w : world) :
  servers_ok d = true →
  scan_servers d s w = (Ret (s || ready_in d), logged w (complaints d)).
Proof.
  revert s w. induction d as [|[k sd] rest IH]; intros s w Hok.
  - cbn. by rewrite orb_false_r, logged_nil.
  - cbn in Hok. apply andb_prop in Hok as [Hsd Hrest].
    cbn [scan_servers].
    rewrite (bind_ret_run _ _ _ _ _ (inspect_server_spec sd s w Hsd)).
    rewrite IH by done. cbn. by rewrite logged_logged, orb_assoc.
Qed.

(** Whatever the reply holds, a scan that starts with the flag set cannot
    return with the flag cleared. *)
Lemma inspect_server_keeps (sd : details) (w w' : world) (b : bool) :
  inspect_server sd true w = (Ret b, w') → b = true.
Proof.
  unfold inspect_server. rewrite bind_run.
  destruct (lift (getitem sd "label") w) as [[label| |] w1]; [|done..].
  case_bool_decide; [|by intros [= <-]].
  rewrite bind_run.
  destruct (lift (getitem sd "status") w1) as [[status| |] w2]; [|done..].
  rewrite bind_run.
  destruct ((if bool_decide (status ≠ VStr "active") then mret true
             else health ← lift (getitem sd "server_state");
                  mret (bool_decide (health ≠ VStr "ok"))) w2)
    as [[[]| |] w3]; [| |done..].
  - rewrite bind_run.
    destruct (lift (getitem sd "status") w3) as [[st| |] w4]; [|done..].
    rewrite bind_run.
    destruct (lift (getitem sd "server_state") w4) as [[h| |] w5]; [|done..].
    cbn. by intros [= <-].
  - by intros [= <-].
Qed.

Lemma scan_servers_keeps (d : pydict) (w w' : world) (b : bool) :
  scan_servers d true w = (Ret b, w') → b = true.
Proof.
  revert w. induction d as [|[k sd] rest IH]; intros w; cbn [scan_servers].
  - by intros [= <-].
  - rewrite bind_run.
    destruct (inspect_server sd true w) as [[b1| |] w1] eqn:E; [|done..].
    apply inspect_server_keeps in E as ->. apply IH.
Qed.

(** * One iteration and the loop *)

Section Poller.
Variable c : client.

Lemma poll_iteration_empty (s : bool) (t : Z) (w : world) :
  server_list c (fetches w) = [] →
  poll_iteration c s t w = (Ret (s, t + 1), fetched w idle).
Proof.
  intros Hd. unfold poll_iteration, sleep, server_list_call, fetched, idle.
  run_monad. rewrite Hd. cbn [length].
  rewrite bool_decide_eq_true_2 by done. cbn [trace fetches].
  by rewrite <- !app_assoc.
Qed.

Lemma poll_iteration_scan (s : bool) (t : Z) (w : world) :
  server_list c (fetches w) ≠ [] →
  servers_ok (server_list c (fetches w)) = true →
  poll_iteration c s t w
  = (Ret (s || ready_in (server_list c (fetches w)), t),
     fetched w ([Sleep 2; ServerList] ++ complaints (server_list c (fetches w)))).
Proof.
  intros Hd Hok. unfold poll_iteration, sleep, server_list_call, fetched.
  run_monad.
  rewrite bool_decide_eq_false_2 by (destruct (server_list c _); [done|cbn; lia]).
  rewrite scan_servers_spec by done.
  unfold logged. cbn. by rewrite <- !app_assoc.
Qed.

Lemma poll_iteration_counter (s s' : bool) (t t' : Z) (w w' : world) :
  server_list c (fetches w) ≠ [] →
  poll_iteration c s t w = (Ret (s', t'), w') → t' = t.
Proof.
  intros Hd. unfold poll_iteration, sleep, server_list_call.
  run_monad.
  rewrite bool_decide_eq_false_2 by (destruct (server_list c _); [done|cbn; lia]).
  destruct (scan_servers _ _ _) as [[b| |] w1]; [|done..].
  by intros [= _ <- _].
Qed.

Lemma poll_iteration_keeps (s' : bool) (t t' : Z) (w w' : world) :
  poll_iteration c true t w = (Ret (s', t'), w') → s' = true.
Proof.
  unfold poll_iteration, sleep, server_list_call. run_monad.
  case_bool_decide; [by intros [= <- _ _]|].
  destruct (scan_servers _ _ _) as [[b| |] w1] eqn:E; [|done..].
  apply scan_servers_keeps in E as ->. by intros [= <- _ _].
Qed.

Lemma poll_while_exit (fuel : nat) (s : bool) (t : Z) (w : world) :
  s = true ∨ 10 ≤ t →
  poll_while c fuel s t w = (Ret (s, t), logged w [Print "Server is Ready!"]).
Proof.
  intros H.
  assert (negb s && bool_decide (t < 10) = false) as Hc.
  { destruct H as [->|H]; [done|].
    rewrite bool_decide_eq_false_2 by lia. apply andb_false_r. }
  destruct fuel; cbn [poll_while]; by rewrite Hc.
Qed.

Lemma poll_while_step (fuel : nat) (t : Z) (w : world) :
  t < 10 →
  poll_while c (S fuel) false t w
  = (poll_iteration c false t ≫= fun st => poll_while c fuel st.1 st.2) w.
Proof.
  intros Ht. cbn [poll_while negb andb].
  rewrite bool_decide_eq_true_2 by done.
  rewrite !bind_run. by destruct (poll_iteration c false t w) as [[[]| |] ?].
Qed.

Lemma poll_while_stuck (t : Z) (w : world) :
  t < 10 → poll_while c 0 false t w = (OutOfFuel, w).
Proof.
  intros Ht. cbn [poll_while negb andb]. by rewrite bool_decide_eq_true_2.
Qed.

(** Every normal exit of the loop passes through its [else] suite. *)
Lemma poll_while_says_ready (fuel : nat) (s s' : bool) (t t' : Z) (w w' : world) :
  poll_while c fuel s t w = (Ret (s', t'), w') →
  last (trace w') = Some (Print "Server is Ready!").
Proof.
  revert s t w. induction fuel as [|fuel IH]; intros s t w;
    cbn [poll_while]; (destruct (negb s && bool_decide (t < 10));
      [|run_monad; intros [= _ _ <-]; cbn; by rewrite last_snoc]);
    [done|].
  rewrite bind_run.
  destruct (poll_iteration c s t w) as [[[s1 t1]| |] w1]; [|done..].
  apply IH.
Qed.

(** Ten empty replies in a row, counted down from any point of the
    loop. *)
Lemma poll_while_idle (n fuel : nat) (t : Z) (w : world) :
  (∀ i, (i < n)%nat → server_list c (fetches w + i) = []) →
  t + Z.of_nat n = 10 → (n ≤ fuel)%nat →
  poll_while c fuel false t w
  = (Ret (false, 10),
     {| trace := trace w ++ idles n ++ [Print "Server is Ready!"];
        fetches := fetches w + n |}).
Proof.
  revert fuel t w. induction n as [|n IH]; intros fuel t w Hd Ht Hf.
  - rewrite poll_while_exit by lia. unfold logged. cbn.
    rewrite Nat.add_0_r. do 3 f_equal. lia.
  - destruct fuel as [|fuel]; [lia|].
    rewrite poll_while_step by lia.
    rewrite (bind_ret_run _ _ _ _ _
               (poll_iteration_empty false t w
                  ltac:(rewrite <- (Nat.add_0_r (fetches w)); apply Hd; lia))).
    cbn [fst snd]. rewrite IH.
    + unfold fetched. cbn [trace fetches idles].
      rewrite <- !app_assoc. do 2 f_equal. lia.
    + intros i Hi. cbn [fetched fetches].
      replace (S (fetches w) + i)%nat with (fetches w + S i)%nat by lia.
      apply Hd. lia.
    + lia.
    + lia.
Qed.

Lemma poll_while_idle_starved (fuel : nat) (t : Z) (w : world) :
  (∀ i, (i < fuel)%nat → server_list c (fetches w + i) = []) →
  t + Z.of_nat fuel < 10 →
  poll_while c fuel false t w
  = (OutOfFuel,
     {| trace := trace w ++ idles fuel; fetches := fetches w + fuel |}).
Proof.
  revert t w. induction fuel as [|fuel IH]; intros t w Hd Ht.
  - rewrite poll_while_stuck by lia. destruct w as [tr n]. cbn.
    by rewrite app_nil_r, Nat.add_0_r.
  - rewrite poll_while_step by lia.
    rewrite (bind_ret_run _ _ _ _ _
               (poll_iteration_empty false t w
                  ltac:(rewrite <- (Nat.add_0_r (fetches w)); apply Hd; lia))).
    cbn [fst snd]. rewrite IH.
    + unfold fetched. cbn [trace fetches idles].
      rewrite <- !app_assoc. do 2 f_equal. lia.
    + intros i Hi. cbn [fetched fetches].
      replace (S (fetches w) + i)%nat with (fetches w + S i)%nat by lia.
      apply Hd. lia.
    + lia.
Qed.

(** Replies that are never empty leave the counter where it was. *)
Lemma poll_while_counter (fuel : nat) (s s' : bool) (t t' : Z) (w w' : world) :
  (∀ n, server_list c n ≠ []) →
  poll_while c fuel s t w = (Ret (s', t'), w') →
  t' = t ∧ (s' = true ∨ 10 ≤ t).
Proof.
  intros Hd. revert s t w. induction fuel as [|fuel IH]; intros s t w;
    cbn [poll_while].
  - destruct s; cbn; [by intros [= <- <- _]; auto|].
    case_bool_decide; [done|]. run_monad. intros [= <- <- _]. lia.
  - destruct s; cbn [negb andb]; [run_monad; intros [= <- <- _]; auto|].
    case_bool_decide; [|run_monad; intros [= <- <- _]; lia].
    rewrite bind_run.
    destruct (poll_iteration c false t w) as [[[s1 t1]| |] w1] eqn:E; [|done..].
    apply poll_iteration_counter in E as ->; [|done].
    apply IH.
Qed.

(** Replies that are never empty and never hold a ready server keep the
    loop running, whatever the fuel. *)
Lemma poll_while_forever (fuel : nat) (t : Z) (w : world) :
  (∀ n, server_list c n ≠ []) →
  (∀ n, servers_ok (server_list c n) = true) →
  (∀ n, ready_in (server_list c n) = false) →
  t < 10 →
  (poll_while c fuel false t w).1 = OutOfFuel.
Proof.
  intros Hd Hok Hnr Ht. revert w. induction fuel as [|fuel IH]; intros w.
  - by rewrite poll_while_stuck.
  - rewrite poll_while_step by done.
    rewrite (bind_ret_run _ _ _ _ _ (poll_iteration_scan false t w (Hd _) (Hok _))).
    rewrite Hnr. apply IH.
Qed.
End Poller.

(** * Provisioning sequence *)

Lemma quota_free (d : pydict) :
  length d = 0%nat → get_limit_running_servers d = Ok true.
Proof.
  intros Hn. unfold get_limit_running_servers.
  by rewrite bool_decide_eq_false_2 by lia.
Qed.

Lemma quota_exceeded (d : pydict) :
  (1 ≤ length d)%nat →
  get_limit_running_servers d
  = Err (MaxServerAlreadyRunning "Maximum servers currently running").
Proof.
  intros Hn. unfold get_limit_running_servers.
  by rewrite bool_decide_eq_true_2 by lia.
Qed.

Lemma main_quota_exceeded (c : client) (fuel : nat) (w : world) :
  (1 ≤ length (server_list c (fetches w)))%nat →
  main c fuel w
  = (Raise (MaxServerAlreadyRunning "Maximum servers currently running"),
     fetched w [ServerList]).
Proof.
  intros Hn. unfold main, server_list_call. run_monad.
  by rewrite quota_exceeded.
Qed.

Lemma main_creates (c : client) (fuel : nat) (w : world)
    (plan os dc key : pyobj) (dcid vpsplanid osid sshkeyid : value) :
  get_limit_running_servers (server_list c (fetches w)) = Ok true →
  get_plan (plans_list c) = Ok plan →
  get_os (os_list c) = Ok os →
  get_datacenter (regions_list c) = Ok dc →
  get_ssh_key (sshkey_list c) = Ok key →
  subscript dc "DCID" = Ok dcid →
  subscript plan "VPSPLANID" = Ok vpsplanid →
  subscript os "OSID" = Ok osid →
  subscript key "SSHKEYID" = Ok sshkeyid →
  main c fuel w
  = poll_server c fuel
      (fetched w
         [ServerList; PlansList; OsList; RegionsList; SshkeyList;
          Print "Creating server now";
          ServerCreate dcid vpsplanid osid
            {[ "hostname" := VStr HOSTNAME; "label" := VStr HOSTNAME;
               "SSHKEYID" := sshkeyid ]}]).
Proof.
  intros Hq Hp Ho Hd Hk Hdi Hpi Hoi Hki.
  unfold main, server_list_call, call. run_monad.
  rewrite Hq, Hp, Ho, Hd, Hk, Hdi, Hpi, Hoi, Hki.
  unfold fetched. cbn [trace fetches]. by rewrite <- !app_assoc.
Qed.

(** * Main theorems *)

(** C1. With no matching candidate a resolver should fail with
    [GenericMissingAttribute] and a message naming the target. [get_ssh_key]
    and [get_plan] do; [get_os] and [get_datacenter] never bind their local
    before the loop, so on an empty reply, or one without a match, reading
    it raises [UnboundLocalError] before [check_return_value] is entered. *)
Theorem unresolved_os_and_datacenter_are_unbound :
  get_os [] = Err (UnboundLocalError "target_os")
  ∧ get_datacenter [] = Err (UnboundLocalError "target_datacenter")
  ∧ get_os [("167", centos)] = Err (UnboundLocalError "target_os")
  ∧ get_datacenter [("1", new_jersey)]
    = Err (UnboundLocalError "target_datacenter")
  ∧ get_ssh_key [("5f1a2b3c4d5e6", laptop_key)]
    = Err (GenericMissingAttribute
             "We tried to find: bgp-coldnorthadmin and nothing matched from Vultr")
  ∧ get_plan [("202", plan_10)]
    = Err (GenericMissingAttribute
             "We tried to find: 5.00 and nothing matched from Vultr").
Proof. vm_compute. repeat split. Qed.

(** C2. A run that times out should not print the confirmation. On ten
    empty replies the loop leaves with the flag still false and the counter
    at 10, and the last line printed is "Server is Ready!": the [else] of a
    [while] without [break] runs on every exit. *)
Theorem timed_out_run_prints_ready :
  poll_while no_servers 10 false 0 initial
  = (Ret (false, 10),
     {| trace := idles 10 ++ [Print "Server is Ready!"]; fetches := 10 |})
  ∧ last (trace (poll_server no_servers 10 initial).2)
    = Some (Print "Server is Ready!").
Proof. vm_compute. split; reflexivity. Qed.

(** C3. An iteration whose reply is not empty leaves the attempt counter
    unchanged, whether the label is found unready or not found; only the
    empty reply increments it. So when no reply is ever empty the loop can
    only end with the flag set and the counter still 0, and when moreover no
    reply holds a ready server it is still running after any number of
    iterations. *)
Theorem counter_moves_only_on_empty_reply (c : client) :
  (∀ s t w, server_list c (fetches w) = [] →
     poll_iteration c s t w = (Ret (s, t + 1), fetched w idle))
  ∧ (∀ s t w, server_list c (fetches w) ≠ [] →
       (∀ s' t' w', poll_iteration c s t w = (Ret (s', t'), w') → t' = t)
       ∧ (servers_ok (server_list c (fetches w)) = true →
            poll_iteration c s t w
            = (Ret (s || ready_in (server_list c (fetches w)), t),
               fetched w ([Sleep 2; ServerList]
                          ++ complaints (server_list c (fetches w))))))
  ∧ ((∀ n, server_list c n ≠ []) →
       ∀ fuel w,
         (∀ s' t' w', poll_while c fuel false 0 w = (Ret (s', t'), w') →
            s' = true ∧ t' = 0)
         ∧ ((∀ n, servers_ok (server_list c n) = true) →
            (∀ n, ready_in (server_list c n) = false) →
            (poll_while c fuel false 0 w).1 = OutOfFuel)).
Proof.
  split; [|split].
  - intros s t w. apply poll_iteration_empty.
  - intros s t w Hd. split.
    + intros s' t' w'. by apply poll_iteration_counter.
    + by apply poll_iteration_scan.
  - intros Hd fuel w. split.
    + intros s' t' w' Hrun.
      apply poll_while_counter in Hrun as [-> [->|?]]; [done|lia|done].
    + intros Hok Hnr. by apply poll_while_forever.
Qed.

Lemma counter_moves_only_on_empty_reply_witness :
  poll_iteration stranger false 0 initial
  = (Ret (false, 0), {| trace := [Sleep 2; ServerList]; fetches := 1 |})
  ∧ (poll_while stranger 25 false 0 initial).1 = OutOfFuel.
Proof.
  destruct (counter_moves_only_on_empty_reply stranger) as (_ & Hiter & Hrun).
  split.
  - destruct (Hiter false 0 initial) as [_ H]; [discriminate|].
    rewrite H by (vm_compute; reflexivity). vm_compute. reflexivity.
  - destruct (Hrun (fun n => ltac:(discriminate)) 25%nat initial) as [_ H].
    apply H; intros n; vm_compute; reflexivity.
Defined.

(** C4. The quota guard returns [True] on an empty collection and raises
    [MaxServerAlreadyRunning] on any collection of size at least 1; [main]
    then stops with that exception, and the only call it has made to the
    provider is the first [server.list()]. *)
Theorem quota_guard_stops_provisioning
    (c : client) (fuel : nat) (w : world) (d : pydict) :
  (length d = 0%nat → get_limit_running_servers d = Ok true)
  ∧ ((1 ≤ length d)%nat →
       get_limit_running_servers d
       = Err (MaxServerAlreadyRunning "Maximum servers currently running")
       ∧ (server_list c (fetches w) = d →
            main c fuel w
            = (Raise (MaxServerAlreadyRunning "Maximum servers currently running"),
               fetched w [ServerList])
            ∧ provider_calls (trace (main c fuel w).2)
              = provider_calls (trace w) ++ [ServerList])).
Proof.
  split; [apply quota_free|].
  intros Hn. split; [by apply quota_exceeded|].
  intros <-. rewrite main_quota_exceeded by done. split; [done|].
  unfold provider_calls, fetched. cbn [snd trace].
  by rewrite List.filter_app.
Qed.

Lemma quota_guard_stops_provisioning_witness :
  get_limit_running_servers [] = Ok true
  ∧ main occupied 10 initial
    = (Raise (MaxServerAlreadyRunning "Maximum servers currently running"),
       {| trace := [ServerList]; fetches := 1 |}).
Proof.
  split.
  - apply (quota_guard_stops_provisioning occupied 10 initial []). reflexivity.
  - destruct (quota_guard_stops_provisioning occupied 10 initial
                (server_list occupied 0)) as [_ H].
    destruct H as [_ H]; [simpl; lia|].
    destruct H as [H _]; [reflexivity|]. exact H.
Defined.

(** C5. When several candidates satisfy the predicate, each of the four
    resolvers returns the one met last in iteration order: the candidate
    [cand] below, whatever matches stand before it. *)
Theorem last_match_wins
    (dim : dimension) (before after : pydict) (k : string) (cand : details) :
  carries (attribute dim) (before ++ (k, cand) :: after) = true →
  matching (attribute dim) (target dim) cand = true →
  forallb (fun kc => negb (matching (attribute dim) (target dim) kc.2)) after
  = true →
  resolve dim (before ++ (k, cand) :: after) = Ok (PyDict cand).
Proof.
  intros Hc Hm Hafter. apply resolve_last; [done|].
  rewrite matches_app. unfold matches at 2. cbn [fmap list_fmap List.filter snd].
  rewrite Hm. fold (matches (attribute dim) (target dim) after).
  rewrite (matches_none _ _ after) by done. by rewrite last_snoc.
Qed.

Lemma last_match_wins_witness :
  get_plan [("201", plan_5); ("400", plan_5_bis); ("202", plan_10)]
  = Ok (PyDict plan_5_bis).
Proof.
  apply (last_match_wins Plan [("201", plan_5)] [("202", plan_10)]
           "400" plan_5_bis); vm_compute; reflexivity.
Defined.

(** C6. When exactly one candidate satisfies the predicate, each of the
    four resolvers returns that candidate. *)
Theorem single_match_is_returned
    (dim : dimension) (d : pydict) (cand : details) :
  carries (attribute dim) d = true →
  matches (attribute dim) (target dim) d = [cand] →
  resolve dim d = Ok (PyDict cand).
Proof. intros Hc Hm. apply resolve_last; [done|]. by rewrite Hm. Qed.

Lemma single_match_is_returned_witness :
  get_os [("167", centos); ("352", debian)] = Ok (PyDict debian)
  ∧ get_datacenter [("1", new_jersey); ("22", toronto)] = Ok (PyDict toronto)
  ∧ get_ssh_key [("541b4960f23bd", admin_key); ("5f1a2b3c4d5e6", laptop_key)]
    = Ok (PyDict admin_key)
  ∧ get_plan [("201", plan_5); ("202", plan_10)] = Ok (PyDict plan_5).
Proof.
  split; [|split; [|split]].
  - apply (single_match_is_returned Os); vm_compute; reflexivity.
  - apply (single_match_is_returned Datacenter); vm_compute; reflexivity.
  - apply (single_match_is_returned SshKey); vm_compute; reflexivity.
  - apply (single_match_is_returned Plan); vm_compute; reflexivity.
Defined.

(** C7. [poll_server] enters the loop with the flag false and the counter
    at 0. On ten empty replies in a row it makes exactly ten iterations and
    returns normally, the counter at 10; after nine of them the loop is
    still running. *)
Theorem ten_empty_replies_time_out (c : client) (fuel : nat) (w : world) :
  (∀ i, (i < 10)%nat → server_list c (fetches w + i) = []) →
  (10 ≤ fuel)%nat →
  poll_server c fuel = (poll_while c fuel false 0 ≫= fun _ => mret tt)
  ∧ poll_while c fuel false 0 w
    = (Ret (false, 10),
       {| trace := trace w ++ idles 10 ++ [Print "Server is Ready!"];
          fetches := fetches w + 10 |})
  ∧ poll_server c fuel w
    = (Ret tt,
       {| trace := trace w ++ idles 10 ++ [Print "Server is Ready!"];
          fetches := fetches w + 10 |})
  ∧ poll_while c 9 false 0 w
    = (OutOfFuel, {| trace := trace w ++ idles 9; fetches := fetches w + 9 |}).
Proof.
  intros Hd Hf.
  assert (poll_while c fuel false 0 w
          = (Ret (false, 10),
             {| trace := trace w ++ idles 10 ++ [Print "Server is Ready!"];
                fetches := fetches w + 10 |})) as Hrun
    by (apply poll_while_idle; [done|lia|done]).
  split; [done|]. split; [done|]. split.
  - unfold poll_server. by rewrite (bind_ret_run _ _ _ _ _ Hrun).
  - apply poll_while_idle_starved; [|lia]. intros i Hi. apply Hd. lia.
Qed.

Lemma ten_empty_replies_time_out_witness :
  poll_server no_servers 10 initial
  = (Ret tt,
     {| trace := idles 10 ++ [Print "Server is Ready!"]; fetches := 10 |}).
Proof.
  destruct (ten_empty_replies_time_out no_servers 10 initial)
    as (_ & _ & H & _); [reflexivity|lia|]. exact H.
Defined.

(** C8. An iteration whose reply holds a server with the configured label,
    status "active" and health "ok" sets the flag, and the loop stops right
    after it. A reply in which no server is labelled, active and ok
    together leaves the flag false; in particular a server with the label
    that is not both active and ok only gets its statuses printed. *)
Theorem ready_server_stops_the_poller
    (c : client) (fuel : nat) (t : Z) (w : world) :
  servers_ok (server_list c (fetches w)) = true →
  t < 10 →
  (ready_in (server_list c (fetches w)) = true →
     poll_iteration c false t w
     = (Ret (true, t),
        fetched w ([Sleep 2; ServerList]
                   ++ complaints (server_list c (fetches w))))
     ∧ poll_while c (S fuel) false t w
       = (Ret (true, t),
          fetched w ([Sleep 2; ServerList]
                     ++ complaints (server_list c (fetches w))
                     ++ [Print "Server is Ready!"])))
  ∧ (ready_in (server_list c (fetches w)) = false →
       ∃ t' w', poll_iteration c false t w = (Ret (false, t'), w'))
  ∧ (∀ sd w1, server_ok sd = true → labelled sd = true → is_ready sd = false →
       inspect_server sd false w1
       = (Ret false,
          logged w1 [Print (not_ready_yet (default (VStr "") (sd !! "status"))
                              (default (VStr "") (sd !! "server_state")))])).
Proof.
  intros Hok Ht. split; [|split].
  - intros Hr.
    assert (server_list c (fetches w) ≠ []) as Hd
      by (intros E; by rewrite E in Hr).
    pose proof (poll_iteration_scan c false t w Hd Hok) as Hit.
    rewrite Hr in Hit. split; [done|].
    rewrite poll_while_step by done.
    rewrite (bind_ret_run _ _ _ _ _ Hit). cbn [fst snd].
    rewrite poll_while_exit by auto.
    unfold logged, fetched. cbn [trace fetches]. by rewrite <- !app_assoc.
  - intros Hr. destruct (server_list c (fetches w)) as [|kd rest] eqn:Hd.
    + eexists _, _. by apply poll_iteration_empty.
    + eexists _, _. rewrite poll_iteration_scan; rewrite Hd; [|done..].
      by rewrite Hr.
  - intros sd w1 Hsd Hlab Hnr. rewrite inspect_server_spec by done.
    unfold complaint. by rewrite Hlab, Hnr.
Qed.

Lemma ready_server_stops_the_poller_witness :
  poll_while fixture 1 false 3 {| trace := []; fetches := 4 |}
  = (Ret (true, 3),
     {| trace := [Sleep 2; ServerList; Print "Server is Ready!"];
        fetches := 5 |}).
Proof.
  destruct (ready_server_stops_the_poller fixture 0 3
              {| trace := []; fetches := 4 |}) as [H _];
    [vm_compute; reflexivity | lia |].
  destruct H as [_ H]; [vm_compute; reflexivity|]. exact H.
Defined.

(** C9. When the quota guard and the four resolvers succeed, [main] issues
    one create call and no other: its arguments are the [DCID], [VPSPLANID]
    and [OSID] of the resolved region, plan and OS, and a dictionary whose
    [hostname] and [label] are both [HOSTNAME] and whose [SSHKEYID] is that
    of the resolved key. *)
Theorem one_create_call_with_resolved_ids
    (c : client) (fuel : nat) (w : world)
    (plan os dc key : pyobj) (dcid vpsplanid osid sshkeyid : value) :
  get_limit_running_servers (server_list c (fetches w)) = Ok true →
  get_plan (plans_list c) = Ok plan →
  get_os (os_list c) = Ok os →
  get_datacenter (regions_list c) = Ok dc →
  get_ssh_key (sshkey_list c) = Ok key →
  subscript dc "DCID" = Ok dcid →
  subscript plan "VPSPLANID" = Ok vpsplanid →
  subscript os "OSID" = Ok osid →
  subscript key "SSHKEYID" = Ok sshkeyid →
  (∃ polling,
     trace (main c fuel w).2
     = trace w
       ++ [ServerList; PlansList; OsList; RegionsList; SshkeyList;
           Print "Creating server now";
           ServerCreate dcid vpsplanid osid
             {[ "hostname" := VStr HOSTNAME; "label" := VStr HOSTNAME;
                "SSHKEYID" := sshkeyid ]}]
       ++ polling
     ∧ creates polling = [])
  ∧ creates (trace (main c fuel w).2)
    = creates (trace w)
      ++ [ServerCreate dcid vpsplanid osid
            {[ "hostname" := VStr HOSTNAME; "label" := VStr HOSTNAME;
               "SSHKEYID" := sshkeyid ]}].
Proof.
  intros Hq Hp Ho Hd Hk Hdi Hpi Hoi Hki.
  rewrite (main_creates c fuel w _ _ _ _ _ _ _ _ Hq Hp Ho Hd Hk Hdi Hpi Hoi Hki).
  destruct (only_poll_server (fun e => negb (is_create e))
              ltac:(done) ltac:(done) ltac:(done) c fuel
              (fetched w
                 [ServerList; PlansList; OsList; RegionsList; SshkeyList;
                  Print "Creating server now";
                  ServerCreate dcid vpsplanid osid
                    {[ "hostname" := VStr HOSTNAME; "label" := VStr HOSTNAME;
                       "SSHKEYID" := sshkeyid ]}]))
    as (polling & -> & Hquiet).
  assert (creates polling = []) as Hnone.
  { clear -Hquiet. unfold creates.
    induction polling as [|e evs IH]; [done|]. cbn in *.
    apply andb_prop in Hquiet as [He Hevs]. apply negb_true_iff in He.
    rewrite He. by apply IH. }
  cbn [trace fetched]. rewrite <- app_assoc. split; [by exists polling|].
  unfold creates in *. by rewrite !List.filter_app, Hnone, app_nil_r.
Qed.

Lemma one_create_call_with_resolved_ids_witness :
  creates (trace (main fixture 10 initial).2)
  = [ServerCreate (VStr "22") (VStr "201") (VInt 352)
       {[ "hostname" := VStr "bgp-coldnorthadmin";
          "label" := VStr "bgp-coldnorthadmin";
          "SSHKEYID" := VStr "541b4960f23bd" ]}].
Proof.
  destruct (one_create_call_with_resolved_ids fixture 10 initial
              (PyDict plan_5) (PyDict debian) (PyDict toronto) (PyDict admin_key)
              (VStr "22") (VStr "201") (VInt 352) (VStr "541b4960f23bd"))
    as [_ H]; [vm_compute; reflexivity..|].
  exact H.
Defined.

(** C10. Within one scan the flag, once set, is not cleared by the servers
    that follow. If a server with the configured label is ready, the scan
    ends with the flag set and the loop stops, also when a server with the
    same label that is not ready comes later in the reply. *)
Theorem ready_flag_is_never_cleared
    (c : client) (fuel : nat) (t : Z) (w : world)
    (before after : pydict) (k : string) (sd : details) :
  server_list c (fetches w) = before ++ (k, sd) :: after →
  servers_ok (before ++ (k, sd) :: after) = true →
  is_ready sd = true →
  t < 10 →
  (∀ w1 w2 b, scan_servers after true w1 = (Ret b, w2) → b = true)
  ∧ (∀ w1, scan_servers after true w1
           = (Ret true, logged w1 (complaints after)))
  ∧ scan_servers (before ++ (k, sd) :: after) false w
    = (Ret true, logged w (complaints (before ++ (k, sd) :: after)))
  ∧ (poll_while c (S fuel) false t w).1 = Ret (true, t).
Proof.
  intros Hd Hok Hr Ht.
  assert (ready_in (before ++ (k, sd) :: after) = true) as Hin.
  { unfold ready_in. rewrite existsb_app. cbn. rewrite Hr.
    by rewrite orb_true_r. }
  assert (servers_ok after = true) as Hafter.
  { unfold servers_ok in Hok. rewrite forallb_app in Hok. cbn in Hok.
    by apply andb_prop in Hok as [_ [_ ?]%andb_prop]. }
  split; [|split; [|split]].
  - intros w1 w2 b. apply scan_servers_keeps.
  - intros w1. by rewrite scan_servers_spec.
  - rewrite scan_servers_spec by done. by rewrite Hin.
  - rewrite poll_while_step by done.
    rewrite (bind_ret_run _ _ _ _ _
               (poll_iteration_scan c false t w
                  ltac:(rewrite Hd; by destruct before)
                  ltac:(by rewrite Hd))).
    rewrite Hd, Hin. cbn [fst snd orb].
    by rewrite poll_while_exit by auto.
Qed.

Lemma ready_flag_is_never_cleared_witness :
  (poll_while twins 1 false 0 initial).1 = Ret (true, 0).
Proof.
  destruct (ready_flag_is_never_cleared twins 0 0 initial []
              [("576966", server "bgp-coldnorthadmin" "pending" "none")]
              "576965" (server "bgp-coldnorthadmin" "active" "ok"))
    as (_ & _ & _ & H); [reflexivity | vm_compute; reflexivity
                         | vm_compute; reflexivity | lia |].
  exact H.
Defined.

(** The end-to-end scenario on the fixture: one create call with the four
    resolved IDs, three empty listings, then the ready server. *)
Example provision_fixture :
  main fixture 10 initial
  = (Ret tt,
     {| trace :=
          [ServerList; PlansList; OsList; RegionsList; SshkeyList;
           Print "Creating server now";
           ServerCreate (VStr "22") (VStr "201") (VInt 352)
             {[ "hostname" := VStr "bgp-coldnorthadmin";
                "label" := VStr "bgp-coldnorthadmin";
                "SSHKEYID" := VStr "541b4960f23bd" ]}]
          ++ idles 3 ++ [Sleep 2; ServerList; Print "Server is Ready!"];
        fetches := 5 |}).
Proof. vm_compute. reflexivity. Qed.


(** * Further properties of the resolvers *)

Lemma matches_nil_none (attr tgt : string) (d : pydict) :
  matches attr tgt d = [] →
  forallb (fun kc => negb (matching attr tgt kc.2)) d = true.
Proof.
  induction d as [|[k cand] rest IH]; [done|].
  unfold matches. cbn. destruct (matching attr tgt cand); [done|].
  intros H. by apply IH.
Qed.

Lemma last_matches_split (attr tgt : string) (d : pydict) (cand : details) :
  last (matches attr tgt d) = Some cand →
  ∃ before k after,
    d = before ++ (k, cand) :: after
    ∧ matching attr tgt cand = true
    ∧ forallb (fun kc => negb (matching attr tgt kc.2)) after = true.
Proof.
  induction d as [|[k0 c0] rest IH]; [done|].
  unfold matches. cbn [fmap list_fmap List.filter snd].
  fold (matches attr tgt rest).
  destruct (last (matches attr tgt rest)) as [c|] eqn:Hrest.
  - intros Hl.
    assert (c = cand) as ->.
    { destruct (matching attr tgt c0); [|congruence].
      rewrite last_cons, Hrest in Hl. congruence. }
    destruct (IH eq_refl) as (before & k & after & -> & Hm & Ha).
    by exists ((k0, c0) :: before), k, after.
  - apply last_None in Hrest.
    destruct (matching attr tgt c0) eqn:Hm0; rewrite Hrest; [|done].
    intros [= <-]. exists [], k0, rest. split; [done|]. split; [done|].
    by apply matches_nil_none.
Qed.

(** X1. A resolver that returns, returns a candidate of the reply: one
    that satisfies the predicate and has no match after it. It never
    returns [None] and never a candidate that does not match. *)
Theorem resolved_candidate_is_the_last_match
    (dim : dimension) (d : pydict) (o : pyobj) :
  resolve dim d = Ok o →
  ∃ before k cand after,
    d = before ++ (k, cand) :: after
    ∧ o = PyDict cand
    ∧ matching (attribute dim) (target dim) cand = true
    ∧ forallb (fun kc => negb (matching (attribute dim) (target dim) kc.2))
        after = true.
Proof.
  intros Hres. rewrite resolve_unfold in Hres.
  destruct (carries (attribute dim) d) eqn:Hc.
  - rewrite for_matching_last in Hres by done.
    destruct (last (matches (attribute dim) (target dim) d)) as [cand|] eqn:Hl.
    + destruct (last_matches_split _ _ _ _ Hl) as (before & k & after & Hd & Hm & Ha).
      exists before, k, cand, after.
      assert (o = PyDict cand) as -> by (by destruct dim; injection Hres).
      done.
    + by destruct dim.
  - by rewrite for_matching_key_error in Hres.
Qed.

Lemma resolved_candidate_is_the_last_match_witness :
  ∃ before k cand after,
    [("201", plan_5); ("400", plan_5_bis); ("202", plan_10)]
    = before ++ (k, cand) :: after
    ∧ PyDict plan_5_bis = PyDict cand
    ∧ matching "price_per_month" "5.00" cand = true
    ∧ forallb (fun kc => negb (matching "price_per_month" "5.00" kc.2)) after
      = true.
Proof.
  apply (resolved_candidate_is_the_last_match Plan
           [("201", plan_5); ("400", plan_5_bis); ("202", plan_10)]
           (PyDict plan_5_bis)).
  vm_compute. reflexivity.
Defined.

(** X2. A candidate without the attribute a resolver compares makes it
    raise [KeyError] on that attribute, wherever the candidate stands in the
    reply and whether or not another candidate matches: the loop has no
    early exit. *)
Theorem candidate_without_attribute_is_a_key_error
    (dim : dimension) (d : pydict) :
  carries (attribute dim) d = false →
  resolve dim d = Err (KeyError (attribute dim)).
Proof.
  intros Hc. rewrite resolve_unfold. by rewrite for_matching_key_error.
Qed.

Lemma candidate_without_attribute_is_a_key_error_witness :
  get_os [("352", debian); ("999", nameless_os)] = Err (KeyError "name").
Proof.
  apply (candidate_without_attribute_is_a_key_error Os
           [("352", debian); ("999", nameless_os)]).
  vm_compute. reflexivity.
Defined.

(** X3. On a reply whose candidates all carry the attribute and none
    matches, [get_ssh_key] and [get_plan] raise [GenericMissingAttribute]
    with the message "We tried to find: <target> and nothing matched from
    Vultr", while [get_os] and [get_datacenter] raise [UnboundLocalError] on
    their local. *)
Theorem unmatched_target_errors (dim : dimension) (d : pydict) :
  carries (attribute dim) d = true →
  forallb (fun kc => negb (matching (attribute dim) (target dim) kc.2)) d
  = true →
  resolve dim d
  = Err (match dim with
         | SshKey =>
             GenericMissingAttribute
               "We tried to find: bgp-coldnorthadmin and nothing matched from Vultr"
         | Plan =>
             GenericMissingAttribute
               "We tried to find: 5.00 and nothing matched from Vultr"
         | Os => UnboundLocalError "target_os"
         | Datacenter => UnboundLocalError "target_datacenter"
         end).
Proof.
  intros Hc Hn. rewrite resolve_no_match; [by destruct dim|done|].
  by apply matches_none.
Qed.

Lemma unmatched_target_errors_witness :
  get_plan [("202", plan_10)]
  = Err (GenericMissingAttribute
           "We tried to find: 5.00 and nothing matched from Vultr")
  ∧ get_datacenter [("1", new_jersey)]
    = Err (UnboundLocalError "target_datacenter").
Proof.
  split.
  - apply (unmatched_target_errors Plan [("202", plan_10)]);
      vm_compute; reflexivity.
  - apply (unmatched_target_errors Datacenter [("1", new_jersey)]);
      vm_compute; reflexivity.
Defined.

(** * Further properties of the provisioning sequence *)

(** The stages of [main], one after the other. *)
Lemma main_stages (c : client) (fuel : nat) (w : world) :
  main c fuel w
  = match get_limit_running_servers (server_list c (fetches w)) with
    | Err e => (Raise e, fetched w [ServerList])
    | Ok _ =>
    match get_plan (plans_list c) with
    | Err e => (Raise e, fetched w listings)
    | Ok plan =>
    match get_os (os_list c) with
    | Err e => (Raise e, fetched w listings)
    | Ok os =>
    match get_datacenter (regions_list c) with
    | Err e => (Raise e, fetched w listings)
    | Ok dc =>
    match get_ssh_key (sshkey_list c) with
    | Err e => (Raise e, fetched w listings)
    | Ok key =>
    match subscript dc "DCID" with
    | Err e => (Raise e, fetched w (listings ++ [Print "Creating server now"]))
    | Ok dcid =>
    match subscript plan "VPSPLANID" with
    | Err e => (Raise e, fetched w (listings ++ [Print "Creating server now"]))
    | Ok vpsplanid =>
    match subscript os "OSID" with
    | Err e => (Raise e, fetched w (listings ++ [Print "Creating server now"]))
    | Ok osid =>
    match subscript key "SSHKEYID" with
    | Err e => (Raise e, fetched w (listings ++ [Print "Creating server now"]))
    | Ok sshkeyid =>
        poll_server c fuel
          (fetched w (listings ++ [Print "Creating server now";
                                   create_call dcid vpsplanid osid sshkeyid]))
    end end end end end end end end end.
Proof.
  unfold main, server_list_call, call, fetched, listings, create_call.
  run_monad.
  repeat match goal with
         | |- context [match ?r with Ok _ => _ | Err _ => _ end] =>
             lazymatch r with
             | get_limit_running_servers _ => destruct r
             | get_plan _ => destruct r
             | get_os _ => destruct r
             | get_datacenter _ => destruct r
             | get_ssh_key _ => destruct r
             | subscript _ _ => destruct r
             end; cbn [trace fetches app]; rewrite <- ?app_assoc;
             try reflexivity
         end.
Qed.

Lemma creates_prints (evs : list event) :
  forallb (fun e => negb (is_create e)) evs = true → creates evs = [].
Proof.
  unfold creates. induction evs as [|e evs IH]; [done|]. cbn.
  intros [He Hevs]%andb_prop. apply negb_true_iff in He.
  rewrite He. by apply IH.
Qed.

Lemma poll_server_creates (c : client) (fuel : nat) (w : world) :
  creates (trace (poll_server c fuel w).2) = creates (trace w).
Proof.
  destruct (only_poll_server (fun e => negb (is_create e))
              ltac:(done) ltac:(done) ltac:(done) c fuel w)
    as (evs & -> & Hevs).
  cbn [trace]. unfold creates. rewrite List.filter_app.
  fold (creates evs). by rewrite (creates_prints evs Hevs), app_nil_r.
Qed.

(** X4. When the quota guard passes and a resolver fails, [main] ends with
    the exception of the first resolver that fails, in the order plan, OS,
    datacenter, SSH key. By then it has made the five listings and nothing
    else: nothing is printed and no server is created. *)
Theorem failed_resolution_aborts_before_create
    (c : client) (fuel : nat) (w : world) (e : exn) :
  get_limit_running_servers (server_list c (fetches w)) = Ok true →
  (p ← get_plan (plans_list c);
   o ← get_os (os_list c);
   d ← get_datacenter (regions_list c);
   k ← get_ssh_key (sshkey_list c);
   mret (p, o, d, k)) = Err e →
  main c fuel w = (Raise e, fetched w listings).
Proof.
  intros Hq He. rewrite main_stages, Hq.
  destruct (get_plan (plans_list c)); [|by injection He as ->].
  destruct (get_os (os_list c)); [|by injection He as ->].
  destruct (get_datacenter (regions_list c)); [|by injection He as ->].
  destruct (get_ssh_key (sshkey_list c)); [|by injection He as ->].
  done.
Qed.

Lemma failed_resolution_aborts_before_create_witness :
  main fixture_without_plan 10 initial
  = (Raise (GenericMissingAttribute
              "We tried to find: 5.00 and nothing matched from Vultr"),
     {| trace := [ServerList; PlansList; OsList; RegionsList; SshkeyList];
        fetches := 1 |}).
Proof.
  apply (failed_resolution_aborts_before_create fixture_without_plan 10 initial);
    vm_compute; reflexivity.
Defined.

(** X5. When everything resolves but a resolved entry lacks its identifier,
    [main] ends with the [KeyError] of the first missing one, in the order
    DCID, VPSPLANID, OSID, SSHKEYID. "Creating server now" has been printed
    by then, and no server is created. *)
Theorem missing_identifier_aborts_after_the_announcement
    (c : client) (fuel : nat) (w : world) (plan os dc key : pyobj) (e : exn) :
  get_limit_running_servers (server_list c (fetches w)) = Ok true →
  get_plan (plans_list c) = Ok plan →
  get_os (os_list c) = Ok os →
  get_datacenter (regions_list c) = Ok dc →
  get_ssh_key (sshkey_list c) = Ok key →
  (dcid ← subscript dc "DCID";
   vpsplanid ← subscript plan "VPSPLANID";
   osid ← subscript os "OSID";
   sshkeyid ← subscript key "SSHKEYID";
   mret (dcid, vpsplanid, osid, sshkeyid)) = Err e →
  main c fuel w
  = (Raise e, fetched w (listings ++ [Print "Creating server now"])).
Proof.
  intros Hq Hp Ho Hd Hk He. rewrite main_stages, Hq, Hp, Ho, Hd, Hk.
  destruct (subscript dc "DCID"); [|by injection He as ->].
  destruct (subscript plan "VPSPLANID"); [|by injection He as ->].
  destruct (subscript os "OSID"); [|by injection He as ->].
  destruct (subscript key "SSHKEYID"); [|by injection He as ->].
  done.
Qed.

Lemma missing_identifier_aborts_after_the_announcement_witness :
  main fixture_without_dcid 10 initial
  = (Raise (KeyError "DCID"),
     {| trace := [ServerList; PlansList; OsList; RegionsList; SshkeyList;
                  Print "Creating server now"];
        fetches := 1 |}).
Proof.
  apply (missing_identifier_aborts_after_the_announcement
           fixture_without_dcid 10 initial
           (PyDict plan_5) (PyDict debian) (PyDict toronto_without_id)
           (PyDict admin_key));
    vm_compute; reflexivity.
Defined.

(** X6. Whatever the provider answers and however the run ends, [main]
    issues at most one create call. *)
Theorem main_creates_at_most_once (c : client) (fuel : nat) (w : world) :
  (length (creates (trace (main c fuel w).2))
   ≤ length (creates (trace w)) + 1)%nat.
Proof.
  rewrite main_stages.
  assert (∀ evs, forallb (fun e => negb (is_create e)) evs = true →
                 creates (trace (fetched w evs)) = creates (trace w)) as Hsame.
  { intros evs Hevs. unfold fetched, creates. cbn [trace].
    rewrite List.filter_app. fold (creates evs).
    by rewrite (creates_prints evs Hevs), app_nil_r. }
  repeat match goal with
         | |- context [match ?r with Ok _ => _ | Err _ => _ end] =>
             destruct r; cbn [snd]; try (rewrite Hsame by done; lia)
         end.
  rewrite poll_server_creates. unfold fetched, creates, listings. cbn [trace].
  rewrite List.filter_app, length_app. cbn. lia.
Qed.

(** * Further properties of the poller *)

Lemma complaint_prints (sd : details) : forallb is_print (complaint sd) = true.
Proof. unfold complaint. by destruct (labelled sd && negb (is_ready sd)). Qed.

Lemma poller_keys_elem (k : string) :
  k = "label" ∨ k = "status" ∨ k = "server_state" → k ∈ poller_keys.
Proof. unfold poller_keys. intros [->| [->| ->]]; set_solver. Qed.

(** Which key is missing when a server stops the scan. *)
Lemma inspect_server_missing_key (sd : details) (s : bool) (w : world) :
  server_ok sd = false →
  ∃ k, inspect_server sd s w = (Raise (KeyError k), w) ∧ k ∈ poller_keys.
Proof.
  unfold server_ok, labelled, inspect_server, getitem. intros Hbad.
  run_monad.
  destruct (sd !! "label") as [label|] eqn:Hl;
    [|eexists; split; [reflexivity|apply poller_keys_elem; auto]].
  rewrite bool_decide_eq_true_2 in Hbad by eauto. cbn in Hbad.
  apply orb_false_iff in Hbad as [Hlab Hkeys].
  apply negb_false_iff, bool_decide_eq_true in Hlab as [= ->].
  rewrite bool_decide_eq_true_2 by done.
  destruct (sd !! "status") as [status|] eqn:Hst;
    [|eexists; split; [reflexivity|apply poller_keys_elem; auto]].
  rewrite bool_decide_eq_true_2 in Hkeys by eauto. cbn in Hkeys.
  destruct (sd !! "server_state") as [health|] eqn:Hh;
    [by rewrite bool_decide_eq_true_2 in Hkeys by eauto|].
  clear Hkeys.
  case_bool_decide;
    (eexists; split; [reflexivity|apply poller_keys_elem; auto]).
Qed.

(** A scan ends with a flag or with a [KeyError]; either way it has only
    printed. *)
Lemma scan_servers_outcome (d : pydict) (s : bool) (w : world) :
  ∃ prints,
    forallb is_print prints = true
    ∧ (scan_servers d s w).2 = logged w prints
    ∧ ((servers_ok d = true
        ∧ (scan_servers d s w).1 = Ret (s || ready_in d))
       ∨ (servers_ok d = false
          ∧ ∃ k, k ∈ poller_keys ∧ (scan_servers d s w).1 = Raise (KeyError k))).
Proof.
  revert s w. induction d as [|[k0 sd] rest IH]; intros s w.
  - exists []. cbn. rewrite logged_nil, orb_false_r. auto.
  - cbn [scan_servers servers_ok forallb snd]. rewrite bind_run.
    destruct (server_ok sd) eqn:Hsd.
    + rewrite inspect_server_spec by done.
      destruct (IH (s || is_ready sd) (logged w (complaint sd)))
        as (prints & Hp & Hw & Hout).
      exists (complaint sd ++ prints).
      rewrite forallb_app, complaint_prints, Hp, Hw, logged_logged.
      split; [done|]. split; [done|].
      cbn [andb ready_in existsb snd]. fold (servers_ok rest) (ready_in rest).
      by rewrite orb_assoc.
    + destruct (inspect_server_missing_key sd s w Hsd) as (k & -> & Hk).
      exists []. rewrite logged_nil. cbn. split; [done|]. split; [done|].
      right. split; [done|]. by exists k.
Qed.

(** One iteration: a pause, a listing, then only printed lines; the counter
    moves exactly when the reply is empty, and the flag, once set, stays. *)
Lemma poll_iteration_outcome (c : client) (s : bool) (t : Z) (w : world) :
  ∃ prints,
    forallb is_print prints = true
    ∧ (poll_iteration c s t w).2 = fetched w ([Sleep 2; ServerList] ++ prints)
    ∧ ((servers_ok (server_list c (fetches w)) = true
        ∧ (poll_iteration c s t w).1
          = Ret (s || ready_in (server_list c (fetches w)),
                 t + (if bool_decide (server_list c (fetches w) = [])
                      then 1 else 0)))
       ∨ (servers_ok (server_list c (fetches w)) = false
          ∧ ∃ k, k ∈ poller_keys
                 ∧ (poll_iteration c s t w).1 = Raise (KeyError k))).
Proof.
  destruct (server_list c (fetches w)) as [|kd rest] eqn:Hd.
  - exists [Print "There are no servers currently running or shutdown"].
    rewrite poll_iteration_empty by done. cbn. rewrite orb_false_r. auto.
  - unfold poll_iteration, sleep, server_list_call. run_monad. rewrite Hd.
    rewrite (bool_decide_eq_false_2 (Z.of_nat _ = 0)) by (cbn; lia).
    rewrite (bool_decide_eq_false_2 (_ = [])) by done.
    match goal with
    | |- context [scan_servers ?d ?s ?w] =>
        destruct (scan_servers_outcome d s w) as (prints & Hp & Hw & Hout);
        destruct (scan_servers d s w) as [out w1]
    end.
    cbn [fst snd] in Hw, Hout. subst w1. exists prints.
    split; [done|]. unfold logged, fetched. cbn [trace fetches].
    destruct Hout as [[Hok ->]|[Hok (k & Hk & ->)]]; cbn [fst snd].
    + rewrite Z.add_0_r, <- !app_assoc. auto.
    + rewrite <- !app_assoc. split; [done|]. right. split; [done|]. by exists k.
Qed.

Lemma paced_app (evs1 evs2 : list event) :
  paced evs1 = true → paced evs2 = true → paced (evs1 ++ evs2) = true.
Proof.
  revert evs1. fix IH 1. intros [|e evs1]; [done|].
  destruct e; try done.
  - destruct evs1 as [|[] evs1]; try done. cbn.
    intros [-> H1]%andb_prop H2. cbn. by apply IH.
  - cbn. intros H1 H2. by apply IH.
Qed.

Lemma paced_prints (evs : list event) :
  forallb is_print evs = true → paced evs = true.
Proof.
  induction evs as [|[] evs IH]; done.
Qed.

(** The events of the loop and the number of listings it has made. *)
Lemma poll_while_paced (c : client) (fuel : nat) (s : bool) (t : Z) (w : world) :
  ∃ evs,
    (poll_while c fuel s t w).2
    = {| trace := trace w ++ evs;
         fetches := fetches w + length (provider_calls evs) |}
    ∧ paced evs = true.
Proof.
  revert s t w. induction fuel as [|fuel IH]; intros s t w;
    cbn [poll_while]; destruct (negb s && bool_decide (t < 10)).
  - exists []. destruct w as [tr n]. cbn. by rewrite app_nil_r, Nat.add_0_r.
  - exists [Print "Server is Ready!"]. cbn. by rewrite Nat.add_0_r.
  - rewrite bind_run.
    destruct (poll_iteration_outcome c s t w) as (prints & Hp & Hw & _).
    assert (length (provider_calls ([Sleep 2; ServerList] ++ prints)) = 1%nat)
      as Hone.
    { cbn. clear -Hp. induction prints as [|[] prints IH]; try done.
      cbn in *. by apply IH. }
    assert (paced ([Sleep 2; ServerList] ++ prints) = true) as Hpaced
      by (cbn; by apply paced_prints).
    destruct (poll_iteration c s t w) as [[[s1 t1]| |] w1]; cbn [snd] in Hw;
      subst w1.
    + destruct (IH s1 t1 (fetched w ([Sleep 2; ServerList] ++ prints)))
        as (evs & -> & Hevs).
      exists (([Sleep 2; ServerList] ++ prints) ++ evs).
      split; [|by apply paced_app].
      unfold fetched, provider_calls in *. cbn [trace fetches].
      rewrite List.filter_app, length_app, Hone, <- app_assoc.
      f_equal. lia.
    + exists ([Sleep 2; ServerList] ++ prints). split; [|done].
      unfold fetched. cbn [snd]. f_equal. rewrite Hone. lia.
    + exists ([Sleep 2; ServerList] ++ prints). split; [|done].
      unfold fetched. cbn [snd]. f_equal. rewrite Hone. lia.
  - exists [Print "Server is Ready!"]. cbn. by rewrite Nat.add_0_r.
Qed.

(** X7. However the poller ends, what it has done is made of printed lines
    and of pairs "sleep two seconds, list the servers": it never lists the
    servers without having just slept, never sleeps another duration, and
    calls nothing else of the provider. *)
Theorem poller_sleeps_before_every_listing
    (c : client) (fuel : nat) (w : world) :
  ∃ evs,
    (poll_server c fuel w).2
    = {| trace := trace w ++ evs;
         fetches := fetches w + length (provider_calls evs) |}
    ∧ paced evs = true.
Proof.
  unfold poll_server. rewrite bind_run.
  destruct (poll_while_paced c fuel false 0 w) as (evs & Hw & Hevs).
  exists evs.
  by destruct (poll_while c fuel false 0 w) as [[r| |] w1]; cbn [snd] in *.
Qed.

Lemma poll_iteration_ret (c : client) (s s' : bool) (t t' : Z) (w w' : world) :
  poll_iteration c s t w = (Ret (s', t'), w') →
  fetches w' = S (fetches w)
  ∧ s' = s || ready_in (server_list c (fetches w))
  ∧ t' = t + (if bool_decide (server_list c (fetches w) = []) then 1 else 0).
Proof.
  intros Hit.
  destruct (poll_iteration_outcome c s t w) as (prints & _ & Hw & Hout).
  rewrite Hit in Hw, Hout. cbn [fst snd] in Hw, Hout. subst w'.
  destruct Hout as [[_ [= -> ->]]|[_ (k & _ & [=])]]. done.
Qed.

(** X8. When the loop returns, its counter has grown by the number of empty
    replies among the listings it made, whether or not they came in a row:
    a reply that is not empty neither increments nor resets it. *)
Theorem counter_counts_empty_replies
    (c : client) (fuel : nat) (s s' : bool) (t t' : Z) (w w' : world) :
  poll_while c fuel s t w = (Ret (s', t'), w') →
  ∃ n, (n ≤ fuel)%nat
       ∧ fetches w' = (fetches w + n)%nat
       ∧ t' = t + Z.of_nat (empties c (fetches w) n).
Proof.
  revert s t w. induction fuel as [|fuel IH]; intros s t w;
    cbn [poll_while]; (destruct (negb s && bool_decide (t < 10));
      [|run_monad; intros [= <- <- <-]; exists 0%nat; cbn; split; [lia|];
        split; lia]); [done|].
  rewrite bind_run.
  destruct (poll_iteration c s t w) as [[[s1 t1]| |] w1] eqn:Hit; [|done..].
  intros Hrun. apply poll_iteration_ret in Hit as (Hf & _ & ->).
  destruct (IH _ _ _ Hrun) as (n & Hn & -> & ->).
  exists (S n). rewrite Hf. cbn [empties]. split; [lia|]. split; [lia|].
  case_bool_decide; lia.
Qed.

Lemma counter_counts_empty_replies_witness :
  ∃ n, (n ≤ 19)%nat
       ∧ 19%nat = (0 + n)%nat
       ∧ 10 = 0 + Z.of_nat (empties flaky 0 n).
Proof.
  apply (counter_counts_empty_replies flaky 19 false false 0 10 initial
           {| trace := trace (poll_while flaky 19 false 0 initial).2;
              fetches := 19 |}).
  vm_compute. reflexivity.
Defined.

(** X9. Entered with the flag false and a counter of at most 10, the loop
    returns in one of two states only: the flag set and the counter still
    below 10, or the flag false and the counter exactly 10. *)
Theorem loop_exits_ready_or_timed_out
    (c : client) (fuel : nat) (s' : bool) (t t' : Z) (w w' : world) :
  t ≤ 10 →
  poll_while c fuel false t w = (Ret (s', t'), w') →
  (s' = true ∧ t ≤ t' < 10) ∨ (s' = false ∧ t' = 10).
Proof.
  revert t w. induction fuel as [|fuel IH]; intros t w Ht;
    cbn [poll_while negb andb]; (case_bool_decide;
      [|run_monad; intros [= <- <- _]; right; split; [done|lia]]); [done|].
  rewrite bind_run.
  destruct (poll_iteration c false t w) as [[[s1 t1]| |] w1] eqn:Hit; [|done..].
  apply poll_iteration_ret in Hit as (_ & -> & ->). cbn [orb].
  destruct (server_list c (fetches w)) as [|kd rest] eqn:Hd.
  - rewrite bool_decide_eq_true_2 by done. cbn [ready_in existsb].
    intros Hrun. apply IH in Hrun; [|lia].
    destruct Hrun as [[? ?]|[? ?]]; [left|right]; (split; [done|lia]).
  - rewrite bool_decide_eq_false_2 by done. rewrite Z.add_0_r.
    destruct (ready_in (kd :: rest)).
    + rewrite poll_while_exit by auto. intros [= <- <- _]. left. lia.
    + intros Hrun. apply IH in Hrun; [|lia].
      destruct Hrun as [[? ?]|[? ?]]; [left|right]; (split; [done|lia]).
Qed.

Lemma loop_exits_ready_or_timed_out_witness :
  (true = true ∧ 0 ≤ 3 < 10) ∨ (true = false ∧ 3 = 10).
Proof.
  apply (loop_exits_ready_or_timed_out fixture 10 true 0 3
           {| trace := []; fetches := 1 |}
           (poll_while fixture 10 false 0 {| trace := []; fetches := 1 |}).2);
    [lia | vm_compute; reflexivity].
Defined.




(** X11. A reply with an entry that lacks its label, or that carries the
    configured label and lacks a status, stops the poller with a [KeyError]
    at that reply, also when the awaited server is ready in the same reply:
    the scan has no early exit. *)
Theorem malformed_reply_stops_the_poller
    (c : client) (fuel : nat) (w : world) :
  servers_ok (server_list c (fetches w)) = false →
  ∃ k prints,
    k ∈ poller_keys
    ∧ forallb is_print prints = true
    ∧ poll_server c (S fuel) w
      = (Raise (KeyError k), fetched w ([Sleep 2; ServerList] ++ prints)).
Proof.
  intros Hbad. unfold poll_server. rewrite bind_run.
  rewrite poll_while_step by done. rewrite bind_run.
  destruct (poll_iteration_outcome c false 0 w) as (prints & Hp & Hw & Hout).
  destruct Hout as [[Hok _]|[_ (k & Hk & Hout)]]; [congruence|].
  destruct (poll_iteration c false 0 w) as [out w1]. cbn [fst snd] in *.
  subst out w1. by exists k, prints.
Qed.

Lemma malformed_reply_stops_the_poller_witness :
  ∃ k prints,
    k ∈ poller_keys
    ∧ forallb is_print prints = true
    ∧ poll_server broken 1 initial
      = (Raise (KeyError k), fetched initial ([Sleep 2; ServerList] ++ prints)).
Proof.
  apply (malformed_reply_stops_the_poller broken 0 initial).
  vm_compute. reflexivity.
Defined.

(** X12. Servers that carry another label have no part in a scan: with
    them removed from the reply, the scan ends with the same flag and has
    printed the same lines, whatever their statuses are. *)
Theorem other_labels_are_ignored (d : pydict) (s : bool) (w : world) :
  servers_ok d = true →
  scan_servers d s w
  = scan_servers (List.filter (fun kc => labelled kc.2) d) s w.
Proof.
  intros Hok.
  assert (servers_ok (List.filter (fun kc => labelled kc.2) d) = true
          ∧ ready_in (List.filter (fun kc => labelled kc.2) d) = ready_in d
          ∧ complaints (List.filter (fun kc => labelled kc.2) d) = complaints d)
    as (Hok' & Hr & Hc).
  { clear s w. unfold servers_ok, ready_in, complaints in *.
    induction d as [|[k sd] rest IH]; [done|].
    cbn in Hok. apply andb_prop in Hok as [Hsd Hrest].
    destruct (IH Hrest) as (IH1 & IH2 & IH3).
    cbn [List.filter snd]. destruct (labelled sd) eqn:Hl;
      cbn [forallb existsb flat_map snd].
    - by rewrite Hsd, IH1, IH2, IH3.
    - unfold is_ready, complaint. rewrite Hl. by cbn. }
  by rewrite !scan_servers_spec, Hr, Hc.
Qed.

Lemma other_labels_are_ignored_witness :
  scan_servers
    [("100200", server "mail" "active" "ok");
     ("576966", server "bgp-coldnorthadmin" "pending" "none")] false initial
  = scan_servers
      [("576966", server "bgp-coldnorthadmin" "pending" "none")] false initial.
Proof.
  apply (other_labels_are_ignored
           [("100200", server "mail" "active" "ok");
            ("576966", server "bgp-coldnorthadmin" "pending" "none")]
           false initial).
  vm_compute. reflexivity.
Defined.

Lemma poll_while_idle_then_ready (c : client) (n fuel : nat) (t : Z) (w : world) :
  (∀ i, (i < n)%nat → server_list c (fetches w + i) = []) →
  servers_ok (server_list c (fetches w + n)) = true →
  ready_in (server_list c (fetches w + n)) = true →
  t + Z.of_nat n < 10 → (n < fuel)%nat →
  poll_while c fuel false t w
  = (Ret (true, t + Z.of_nat n),
     {| trace := trace w ++ idles n ++ [Sleep 2; ServerList]
                 ++ complaints (server_list c (fetches w + n))
                 ++ [Print "Server is Ready!"];
        fetches := fetches w + S n |}).
Proof.
  revert fuel t w. induction n as [|n IH]; intros fuel t w Hd Hok Hr Ht Hf;
    (destruct fuel as [|fuel]; [lia|]); rewrite poll_while_step by lia.
  - rewrite Nat.add_0_r in *.
    assert (server_list c (fetches w) ≠ []) as Hne
      by (intros E; by rewrite E in Hr).
    rewrite (bind_ret_run _ _ _ _ _ (poll_iteration_scan c false t w Hne Hok)).
    rewrite Hr. cbn [fst snd orb]. rewrite poll_while_exit by auto.
    unfold logged, fetched. cbn [trace fetches idles app].
    rewrite Z.add_0_r, <- !app_assoc. do 2 f_equal. lia.
  - rewrite (bind_ret_run _ _ _ _ _
               (poll_iteration_empty c false t w
                  ltac:(rewrite <- (Nat.add_0_r (fetches w)); apply Hd; lia))).
    cbn [fst snd].
    assert ((fetches (fetched w idle) + n)%nat = (fetches w + S n)%nat) as Hidx
      by (cbn; lia).
    rewrite IH; rewrite ?Hidx; try done; try lia.
    + unfold fetched. cbn [trace fetches idles].
      rewrite <- !app_assoc.
      replace (t + 1 + Z.of_nat n) with (t + Z.of_nat (S n)) by lia.
      replace (S (fetches w) + S n)%nat with (fetches w + S (S n))%nat by lia.
      done.
    + intros i Hi. cbn [fetched fetches].
      replace (S (fetches w) + i)%nat with (fetches w + S i)%nat by lia.
      apply Hd. lia.
Qed.

(** X13. After fewer than ten empty replies, a reply that holds the ready
    server ends the loop with the flag set and the counter at the number
    of empty replies seen; the poller has then made one listing more than
    that number. *)
Theorem ready_after_empty_replies
    (c : client) (n fuel : nat) (w : world) :
  (n < 10)%nat →
  (∀ i, (i < n)%nat → server_list c (fetches w + i) = []) →
  servers_ok (server_list c (fetches w + n)) = true →
  ready_in (server_list c (fetches w + n)) = true →
  (n < fuel)%nat →
  poll_while c fuel false 0 w
  = (Ret (true, Z.of_nat n),
     {| trace := trace w ++ idles n ++ [Sleep 2; ServerList]
                 ++ complaints (server_list c (fetches w + n))
                 ++ [Print "Server is Ready!"];
        fetches := fetches w + S n |}).
Proof.
  intros Hn Hd Hok Hr Hf.
  rewrite (poll_while_idle_then_ready c n fuel 0 w) by (done || lia).
  by rewrite Z.add_0_l.
Qed.

Lemma ready_after_empty_replies_witness :
  poll_while fixture 10 false 0 {| trace := []; fetches := 1 |}
  = (Ret (true, 3),
     {| trace := idles 3 ++ [Sleep 2; ServerList; Print "Server is Ready!"];
        fetches := 5 |}).
Proof.
  apply (ready_after_empty_replies fixture 3 10 {| trace := []; fetches := 1 |});
    [lia | | vm_compute; reflexivity | vm_compute; reflexivity | lia].
  intros i Hi. cbn [fetches].
  destruct i as [|[|[|i]]]; [reflexivity..|lia].
Defined.

(** X14. End to end: when the quota guard passes, the four targets resolve
    to entries that carry their identifiers, and after the create call the
    provider answers fewer than ten empty listings and then one that holds
    the ready server, [main] returns normally, having made the five
    listings, the one create call, and one listing per poll. *)
Theorem provision_then_ready
    (c : client) (n fuel : nat) (w : world)
    (plan os dc key : pyobj) (dcid vpsplanid osid sshkeyid : value) :
  get_limit_running_servers (server_list c (fetches w)) = Ok true →
  get_plan (plans_list c) = Ok plan →
  get_os (os_list c) = Ok os →
  get_datacenter (regions_list c) = Ok dc →
  get_ssh_key (sshkey_list c) = Ok key →
  subscript dc "DCID" = Ok dcid →
  subscript plan "VPSPLANID" = Ok vpsplanid →
  subscript os "OSID" = Ok osid →
  subscript key "SSHKEYID" = Ok sshkeyid →
  (n < 10)%nat →
  (∀ i, (i < n)%nat → server_list c (S (fetches w) + i) = []) →
  servers_ok (server_list c (S (fetches w) + n)) = true →
  ready_in (server_list c (S (fetches w) + n)) = true →
  (n < fuel)%nat →
  main c fuel w
  = (Ret tt,
     {| trace := trace w
                 ++ (listings ++ [Print "Creating server now";
                                  create_call dcid vpsplanid osid sshkeyid])
                 ++ idles n ++ [Sleep 2; ServerList]
                 ++ complaints (server_list c (S (fetches w) + n))
                 ++ [Print "Server is Ready!"];
        fetches := S (fetches w) + S n |}).
Proof.
  intros Hq Hp Ho Hd Hk Hdi Hpi Hoi Hki Hn He Hok Hr Hf.
  rewrite main_stages, Hq, Hp, Ho, Hd, Hk, Hdi, Hpi, Hoi, Hki.
  unfold poll_server.
  rewrite (bind_ret_run _ _ _ _ _
             (poll_while_idle_then_ready c n fuel 0
                (fetched w (listings ++ [Print "Creating server now";
                                         create_call dcid vpsplanid osid sshkeyid]))
                He Hok Hr ltac:(lia) Hf)).
  unfold fetched. cbn [trace fetches]. by rewrite <- !app_assoc.
Qed.

Lemma provision_then_ready_witness :
  main fixture 10 initial
  = (Ret tt,
     {| trace :=
          (listings ++ [Print "Creating server now";
                        create_call (VStr "22") (VStr "201") (VInt 352)
                          (VStr "541b4960f23bd")])
          ++ idles 3 ++ [Sleep 2; ServerList; Print "Server is Ready!"];
        fetches := 5 |}).
Proof.
  apply (provision_then_ready fixture 3 10 initial
           (PyDict plan_5) (PyDict debian) (PyDict toronto) (PyDict admin_key));
    try (vm_compute; reflexivity); try lia.
  intros i Hi. cbn [fetches initial].
  destruct i as [|[|[|i]]]; [reflexivity..|lia].
Defined.

(** X15. [main] also returns normally when the server never shows up: with
    everything resolved and ten empty listings after the create call, the
    run ends without an exception, the one create call made and
    "Server is Ready!" the last line printed. *)
Theorem provision_then_timeout_returns_normally
    (c : client) (fuel : nat) (w : world)
    (plan os dc key : pyobj) (dcid vpsplanid osid sshkeyid : value) :
  get_limit_running_servers (server_list c (fetches w)) = Ok true →
  get_plan (plans_list c) = Ok plan →
  get_os (os_list c) = Ok os →
  get_datacenter (regions_list c) = Ok dc →
  get_ssh_key (sshkey_list c) = Ok key →
  subscript dc "DCID" = Ok dcid →
  subscript plan "VPSPLANID" = Ok vpsplanid →
  subscript os "OSID" = Ok osid →
  subscript key "SSHKEYID" = Ok sshkeyid →
  (∀ i, (i < 10)%nat → server_list c (S (fetches w) + i) = []) →
  (10 ≤ fuel)%nat →
  main c fuel w
  = (Ret tt,
     {| trace := trace w
                 ++ (listings ++ [Print "Creating server now";
                                  create_call dcid vpsplanid osid sshkeyid])
                 ++ idles 10 ++ [Print "Server is Ready!"];
        fetches := S (fetches w) + 10 |}).
Proof.
  intros Hq Hp Ho Hd Hk Hdi Hpi Hoi Hki He Hf.
  rewrite main_stages, Hq, Hp, Ho, Hd, Hk, Hdi, Hpi, Hoi, Hki.
  unfold poll_server.
  rewrite (bind_ret_run _ _ _ _ _
             (poll_while_idle c 10 fuel 0
                (fetched w (listings ++ [Print "Creating server now";
                                         create_call dcid vpsplanid osid sshkeyid]))
                He ltac:(lia) Hf)).
  unfold fetched. cbn [trace fetches]. by rewrite <- !app_assoc.
Qed.

Lemma provision_then_timeout_returns_normally_witness :
  (main fixture_never_listed 10 initial).1 = Ret tt.
Proof.
  rewrite (provision_then_timeout_returns_normally fixture_never_listed 10 initial
             (PyDict plan_5) (PyDict debian) (PyDict toronto) (PyDict admin_key)
             (VStr "22") (VStr "201") (VInt 352) (VStr "541b4960f23bd"));
    try (vm_compute; reflexivity); try lia.
Defined.
